(** * GitLab merge-request webhook receiver ([lambda.py])

    A shallow embedding of the Lambda function of [src/lambda.py] and the
    properties of its specification.

    The handler is a dynamically typed Python program over values decoded
    from JSON, so the embedding keeps the values dynamic: a payload is a
    [json] value and every attribute access, subscript and iteration of the
    source either returns or raises the exception CPython raises.  The three
    collaborators of the module (Secrets Manager, CodePipeline and the
    process environment) are gathered in a record [World]; the functions of
    the Python library the handler calls ([json.loads], [json.dumps],
    [str.lower], formatting inside f-strings) are the fields of the class
    [PyRuntime].  The calls to [print] write to the log only and are left
    out. *)

From Stdlib Require Import List String Ascii ZArith Bool Lia PrimFloat DecimalString.
Import ListNotations.
Local Open Scope string_scope.
Local Open Scope Z_scope.
Set Warnings "-register-all".

(** ** Values *)

(** The values [json.loads] produces: [None], [bool], [int], [float], [str],
    [list] and [dict].  A [dict] is kept as an association list in insertion
    order: the order is observable ([headers.items()]), and a decoded object
    has no repeated key. *)
Inductive json : Type :=
| JNull
| JBool (b : bool)
| JInt (n : Z)
| JFloat (f : float)
| JString (s : string)
| JArray (items : list json)
| JObject (fields : list (string * json)).

Definition dict := list (string * json).

(** [d.get(k)] on the association list: the value under [k], if any. *)
Fixpoint dict_get (d : dict) (k : string) : option json :=
  match d with
  | [] => None
  | (k', v) :: rest => if String.eqb k' k then Some v else dict_get rest k
  end.

(** [d[k] = v]: an existing key keeps its position, a new key goes last. *)
Fixpoint dict_set (d : dict) (k : string) (v : json) : dict :=
  match d with
  | [] => [(k, v)]
  | (k', v') :: rest =>
      if String.eqb k' k then (k', v) :: rest else (k', v') :: dict_set rest k v
  end.

(** Truth value of an object, as tested by [if x:] and [not x]. *)
Definition truthy (v : json) : bool :=
  match v with
  | JNull => false
  | JBool b => b
  | JInt n => negb (n =? 0)
  | JFloat f => negb (PrimFloat.eqb f PrimFloat.zero)
  | JString s => negb (String.eqb s "")
  | JArray items => match items with [] => false | _ => true end
  | JObject fields => match fields with [] => false | _ => true end
  end.

(** [v == s] for a string [s]: only the string [s] itself is equal to it. *)
Definition eq_str (v : json) (s : string) : bool :=
  match v with
  | JString s' => String.eqb s' s
  | _ => false
  end.

(** ** Exceptions and results *)

Inductive exn : Type :=
| AttributeError
| TypeError
| KeyError
| DecoderError   (* raised by [json.loads], not a [JSONDecodeError] *)
| SecretsManagerError
| CodePipelineError.

Inductive result (A : Type) : Type :=
| Ret (a : A)
| Raise (e : exn).
Arguments Ret {A} a.
Arguments Raise {A} e.

Definition rbind {A B} (r : result A) (k : A -> result B) : result B :=
  match r with
  | Ret a => k a
  | Raise e => Raise e
  end.

Declare Scope result_scope.
Delimit Scope result_scope with result.
Notation "x <- r ;; k" := (rbind r (fun x => k))
  (at level 61, r at next level, right associativity) : result_scope.
Notation "' p <- r ;; k" := (rbind r (fun p => k))
  (at level 61, p pattern, r at next level, right associativity) : result_scope.

(** [v.get(k, default)]: only a [dict] has the method. *)
Definition py_get (v : json) (k : string) (default : json) : result json :=
  match v with
  | JObject d => Ret (match dict_get d k with Some x => x | None => default end)
  | _ => Raise AttributeError
  end.

(** [v[k]] for a string [k]: a missing key of a [dict] is a [KeyError]; a
    [list] or a [str] takes integer indices only, and the other values are
    not subscriptable. *)
Definition py_getitem (v : json) (k : string) : result json :=
  match v with
  | JObject d => match dict_get d k with Some x => Ret x | None => Raise KeyError end
  | _ => Raise TypeError
  end.

(** The elements a [for] visits: the items of a [list], the keys of a
    [dict], the characters of a [str] (one per byte here; the handler
    subscripts the first of them, a [str], and raises whichever it is). *)
Fixpoint chars (s : string) : list json :=
  match s with
  | EmptyString => []
  | String c rest => JString (String c EmptyString) :: chars rest
  end.

Definition py_iter (v : json) : result (list json) :=
  match v with
  | JArray items => Ret items
  | JObject d => Ret (map (fun kv => JString (fst kv)) d)
  | JString s => Ret (chars s)
  | _ => Raise TypeError
  end.

(** ** The Python library *)

Inductive decoded : Type :=
| Decoded (v : json)
| JSONDecodeError
| DecoderRaises.

(** The library functions the module calls.  [json_loads] answers on a
    [str]; besides [JSONDecodeError] the decoder can raise other exceptions
    (a [RecursionError] on deep nesting), which the handler does not catch.
    [py_str] is what an f-string field [{x}] inserts.  The two laws are the
    facts about the library the handler's defaults rely on. *)
Class PyRuntime : Type := {
  json_loads : string -> decoded;
  json_dumps : json -> string;
  str_lower : string -> string;
  py_str : json -> string;
  json_loads_empty_object : json_loads "{}" = Decoded (JObject []);
  py_str_string : forall s, py_str (JString s) = s
}.

(** ** The collaborators *)

(** The answer of [get_secret_value]: a response, of which the module reads
    [SecretString] (the secrets are text secrets), the exception the module
    catches, or another client error. *)
Inductive secret_reply : Type :=
| SecretResponse (SecretString : string)
| ResourceNotFoundException
| SecretsClientError.

(** One call of [codepipeline.start_pipeline_execution]. *)
Record trigger_call : Type := {
  call_name : json;
  call_variables : json
}.

Inductive start_reply : Type :=
| PipelineStarted (pipelineExecutionId : string)
| StartFailed.

(** [get_secret_value] answers for a [SecretId]; [start_pipeline_execution]
    answers a call after the calls already made in the invocation; [environ]
    is [os.environ]. *)
Record World : Type := {
  get_secret_value : string -> secret_reply;
  start_pipeline_execution : list trigger_call -> trigger_call -> start_reply;
  environ : string -> option string
}.

(** ** The handler's monad: a result and the trigger calls made so far *)

Definition M (A : Type) : Type := list trigger_call -> result A * list trigger_call.

Definition ret {A} (a : A) : M A := fun tr => (Ret a, tr).

Definition bind {A B} (m : M A) (k : A -> M B) : M B :=
  fun tr =>
    match m tr with
    | (Ret a, tr') => k a tr'
    | (Raise e, tr') => (Raise e, tr')
    end.

Definition lift {A} (r : result A) : M A := fun tr => (r, tr).

Declare Scope handler_scope.
Delimit Scope handler_scope with handler.
Notation "x <~ m ;; k" := (bind m (fun x => k))
  (at level 61, m at next level, right associativity) : handler_scope.
Notation "' p <~ m ;; k" := (bind m (fun p => k))
  (at level 61, p pattern, m at next level, right associativity) : handler_scope.

(** The dictionary the handler returns. *)
Record response : Type := {
  statusCode : Z;
  body : string;
  headers : option (list (string * string))
}.

(** ** The module *)

Section Lambda.

Context {rt : PyRuntime} (w : World).

Local Open Scope result_scope.

(** [get_project_token]: the [SecretString] registered under
    [gitlab/{project}/token], [None] when Secrets Manager has no such
    secret.  Any other client error propagates. *)
Definition get_project_token (project : json) : result (option string) :=
  let secret_name := "gitlab/" ++ py_str project ++ "/token" in
  match get_secret_value w secret_name with
  | SecretResponse s => Ret (Some s)
  | ResourceNotFoundException => Ret None
  | SecretsClientError => Raise SecretsManagerError
  end.

(** [headers.items()] *)
Definition py_items (v : json) : result dict :=
  match v with
  | JObject d => Ret d
  | _ => Raise AttributeError
  end.

(** [{k.lower(): v for k, v in headers.items()}] *)
Definition lower_keys (items : dict) : dict :=
  fold_left (fun acc kv => dict_set acc (str_lower (fst kv)) (snd kv)) items [].

(** [not expected_token], for the [str] or [None] the lookup returned. *)
Definition falsy_token (expected_token : option string) : bool :=
  match expected_token with
  | Some s => String.eqb s ""
  | None => true
  end.

(** [token != expected_token], for a [str] or [None] on the right. *)
Definition differs (token : json) (expected_token : option string) : bool :=
  match expected_token with
  | Some s => negb (eq_str token s)
  | None => match token with JNull => false | _ => true end
  end.

(** [verify_gitlab_signature]: the pair [(is_valid, error_msg)]. *)
Definition verify_gitlab_signature (payload headers : json) : result (bool * json) :=
  items <- py_items headers ;;
  let headers_lower := lower_keys items in
  let token :=
    match dict_get headers_lower "x-gitlab-token" with
    | Some t => t
    | None => JString ""
    end in
  project_info <- py_get payload "project" (JObject []) ;;
  project <- py_get project_info "path_with_namespace" JNull ;;
  if negb (truthy project) then
    Ret (false, JString "No project info in payload")
  else
    expected_token <- get_project_token project ;;
    if falsy_token expected_token then
      Ret (false, JString ("No token registered for project " ++ py_str project))
    else if differs token expected_token then
      Ret (false, JString "Invalid secret token")
    else
      Ret (true, JNull).

Local Open Scope handler_scope.

(** The [variables] argument of [trigger_pipeline]'s call. *)
Definition branch_override (branch_name : json) : json :=
  JArray [JObject [("name", JString "SOURCE_BRANCH"); ("value", branch_name)]].

(** [trigger_pipeline]: one call of [start_pipeline_execution], recorded
    whether it succeeds or not.  The result stands for the response, of
    which the handler reads [pipelineExecutionId] only. *)
Definition trigger_pipeline (pipeline_name branch_name : json) : M string :=
  fun tr =>
    let c := {| call_name := pipeline_name;
                call_variables := branch_override branch_name |} in
    match start_pipeline_execution w tr c with
    | PipelineStarted execution_id => (Ret execution_id, (tr ++ [c])%list)
    | StartFailed => (Raise CodePipelineError, (tr ++ [c])%list)
    end.

(** [json.loads(s)] under [try ... except json.JSONDecodeError]: [None]
    stands for the handled error.  Anything but a [str] is a [TypeError]. *)
Definition loads (s : json) : result (option json) :=
  match s with
  | JString text =>
      match json_loads text with
      | Decoded v => Ret (Some v)
      | JSONDecodeError => Ret None
      | DecoderRaises => Raise DecoderError
      end
  | _ => Raise TypeError
  end.

(** [label["title"].lower()] *)
Definition label_title (label : json) : result string :=
  (title <- py_getitem label "title" ;;
   match title with
   | JString s => Ret (str_lower s)
   | _ => Raise AttributeError
   end)%result.

(** [[label["title"].lower() for label in labels]] over the visited items. *)
Fixpoint titles_of (labels : list json) : result (list string) :=
  match labels with
  | [] => Ret []
  | label :: rest =>
      (title <- label_title label ;;
       titles <- titles_of rest ;;
       Ret (title :: titles))%result
  end.

Definition label_titles_of (labels : json) : result (list string) :=
  (items <- py_iter labels ;; titles_of items)%result.

Definition triggered_entry (label : string) (pipeline_name : json)
    (execution_id : string) : json :=
  JObject [("label", JString label); ("pipeline", pipeline_name);
           ("execution_id", JString execution_id)].

(** The loop [for label in label_titles], with [triggered_pipelines] as
    accumulator. *)
Fixpoint trigger_labels (label_pipeline_mapping source_branch : json)
    (label_titles : list string) (triggered_pipelines : list json) : M (list json) :=
  match label_titles with
  | [] => ret triggered_pipelines
  | label :: rest =>
      pipeline_name <~ lift (py_get label_pipeline_mapping label JNull) ;;
      if truthy pipeline_name then
        execution_id <~ trigger_pipeline pipeline_name source_branch ;;
        trigger_labels label_pipeline_mapping source_branch rest
          (triggered_pipelines ++ [triggered_entry label pipeline_name execution_id])%list
      else
        trigger_labels label_pipeline_mapping source_branch rest triggered_pipelines
  end.

Definition json_headers : option (list (string * string)) :=
  Some [("Content-Type", "application/json")].

Definition error_response (status : Z) (msg : json) : response :=
  {| statusCode := status;
     body := json_dumps (JObject [("error", msg)]);
     headers := None |}.

Definition not_merge_request_response : response :=
  {| statusCode := 200;
     body := json_dumps (JObject [("message", JString "Not a merge request event")]);
     headers := None |}.

Definition no_match_response : response :=
  {| statusCode := 200;
     body := json_dumps
               (JObject [("message", JString "No matching label for pipeline, skipped")]);
     headers := json_headers |}.

Definition triggered_response (triggered_pipelines : list json) : response :=
  {| statusCode := 200;
     body := json_dumps (JObject [("triggered_pipelines", JArray triggered_pipelines)]);
     headers := json_headers |}.

(** [os.environ.get("LABEL_PIPELINE_MAPPING", "{}")] *)
Definition label_pipeline_mapping_str : string :=
  match environ w "LABEL_PIPELINE_MAPPING" with
  | Some s => s
  | None => "{}"
  end.

(** Lines 74 to 114: what the handler does with an authenticated
    merge-request payload. *)
Definition dispatch (payload : json) : M response :=
  labels <~ lift (py_get payload "labels" (JArray [])) ;;
  label_titles <~ lift (label_titles_of labels) ;;
  object_attributes <~ lift (py_get payload "object_attributes" (JObject [])) ;;
  source_branch <~ lift (py_get object_attributes "source_branch" JNull) ;;
  mapping <~ lift (loads (JString label_pipeline_mapping_str)) ;;
  match mapping with
  | None =>
      ret (error_response 500 (JString "Invalid LABEL_PIPELINE_MAPPING env var"))
  | Some label_pipeline_mapping =>
      triggered_pipelines <~
        trigger_labels label_pipeline_mapping source_branch label_titles [] ;;
      match triggered_pipelines with
      | [] => ret no_match_response
      | _ => ret (triggered_response triggered_pipelines)
      end
  end.

(** [lambda_handler(event, context)]; [context] is not used. *)
Definition lambda_handler (event : json) : M response :=
  body <~ lift (py_get event "body" (JString "{}")) ;;
  headers <~ lift (py_get event "headers" (JObject [])) ;;
  parsed <~ lift (loads body) ;;
  match parsed with
  | None => ret (error_response 400 (JString "Invalid JSON payload"))
  | Some payload =>
      '(is_valid, error_msg) <~ lift (verify_gitlab_signature payload headers) ;;
      if negb is_valid then
        ret (error_response 403 error_msg)
      else
        object_kind <~ lift (py_get payload "object_kind" JNull) ;;
        if negb (eq_str object_kind "merge_request") then
          ret not_merge_request_response
        else
          dispatch payload
  end.

(** One invocation: the outcome and the trigger calls it made. *)
Definition invoke (event : json) : result response * list trigger_call :=
  lambda_handler event [].

End Lambda.

(** ** A reference runtime

    An executable instance of [PyRuntime] for the examples: the library
    functions on the fragment of ASCII texts with integer numbers and the
    two-character backslash escapes.  Texts and values outside the fragment
    (floats, unicode escapes, letters beyond ASCII) are not meant to be
    given to it.  The double quote is written [dq]. *)
Module Reference.

Local Open Scope char_scope.

Definition dq : ascii := "034".

Definition is_ws (c : ascii) : bool :=
  match c with
  | " " | "009" | "010" | "013" => true
  | _ => false
  end.

Fixpoint skip_ws (l : list ascii) : list ascii :=
  match l with
  | c :: rest => if is_ws c then skip_ws rest else l
  | [] => []
  end.

Definition digit_of (c : ascii) : option Z :=
  let n := Z.of_nat (nat_of_ascii c) in
  if ((48 <=? n) && (n <=? 57))%Z then Some (n - 48)%Z else None.

(** The digits at the head of the text, as a number, and the rest. *)
Fixpoint digits (acc : Z) (l : list ascii) : Z * list ascii :=
  match l with
  | c :: rest =>
      match digit_of c with
      | Some d => digits (10 * acc + d)%Z rest
      | None => (acc, l)
      end
  | [] => (acc, [])
  end.

(** An optional sign, then a zero or digits with no leading zero; what
    would continue as a float is refused. *)
Definition scan_int (l : list ascii) : option (Z * list ascii) :=
  let '(neg, l1) := match l with "-" :: r => (true, r) | _ => (false, l) end in
  match l1 with
  | c :: r =>
      match digit_of c with
      | Some d =>
          let '(n, rest) := if (d =? 0)%Z then (0%Z, r) else digits d r in
          match rest with
          | "." :: _ | "e" :: _ | "E" :: _ => None
          | _ => Some (if neg then (- n)%Z else n, rest)
          end
      | None => None
      end
  | [] => None
  end.

(** The body of a string literal, after the opening quote. *)
Fixpoint scan_string (l : list ascii) (acc : list ascii) : option (string * list ascii) :=
  match l with
  | "034" :: rest => Some (string_of_list_ascii (rev acc), rest)
  | "\" :: e :: rest =>
      match e with
      | "034" => scan_string rest (dq :: acc)
      | "\" => scan_string rest ("\" :: acc)
      | "/" => scan_string rest ("/" :: acc)
      | "b" => scan_string rest ("008" :: acc)
      | "f" => scan_string rest ("012" :: acc)
      | "n" => scan_string rest ("010" :: acc)
      | "r" => scan_string rest ("013" :: acc)
      | "t" => scan_string rest ("009" :: acc)
      | _ => None
      end
  | c :: rest => if (nat_of_ascii c <? 32)%nat then None else scan_string rest (c :: acc)
  | [] => None
  end.

Fixpoint starts_with (p l : list ascii) : option (list ascii) :=
  match p, l with
  | [], _ => Some l
  | a :: p', b :: l' => if Ascii.eqb a b then starts_with p' l' else None
  | _ :: _, [] => None
  end.

Fixpoint scan_value (fuel : nat) (l : list ascii) : option (json * list ascii) :=
  match fuel with
  | O => None
  | S fuel' =>
      match l with
      | "034" :: rest =>
          match scan_string rest [] with
          | Some (s, rest') => Some (JString s, rest')
          | None => None
          end
      | "{" :: rest =>
          match skip_ws rest with
          | "}" :: rest' => Some (JObject [], rest')
          | rest' => scan_members fuel' rest' []
          end
      | "[" :: rest =>
          match skip_ws rest with
          | "]" :: rest' => Some (JArray [], rest')
          | rest' => scan_elements fuel' rest' []
          end
      | "n" :: _ =>
          option_map (fun r => (JNull, r)) (starts_with (list_ascii_of_string "null") l)
      | "t" :: _ =>
          option_map (fun r => (JBool true, r)) (starts_with (list_ascii_of_string "true") l)
      | "f" :: _ =>
          option_map (fun r => (JBool false, r)) (starts_with (list_ascii_of_string "false") l)
      | _ => option_map (fun nr => (JInt (fst nr), snd nr)) (scan_int l)
      end
  end

with scan_elements (fuel : nat) (l : list ascii) (acc : list json)
    : option (json * list ascii) :=
  match fuel with
  | O => None
  | S fuel' =>
      match scan_value fuel' l with
      | Some (v, rest) =>
          match skip_ws rest with
          | "," :: rest' => scan_elements fuel' (skip_ws rest') (acc ++ [v])
          | "]" :: rest' => Some (JArray (acc ++ [v]), rest')
          | _ => None
          end
      | None => None
      end
  end

with scan_members (fuel : nat) (l : list ascii) (acc : dict)
    : option (json * list ascii) :=
  match fuel with
  | O => None
  | S fuel' =>
      match l with
      | "034" :: rest =>
          match scan_string rest [] with
          | Some (k, rest1) =>
              match skip_ws rest1 with
              | ":" :: rest2 =>
                  match scan_value fuel' (skip_ws rest2) with
                  | Some (v, rest3) =>
                      match skip_ws rest3 with
                      | "," :: rest4 => scan_members fuel' (skip_ws rest4) (dict_set acc k v)
                      | "}" :: rest4 => Some (JObject (dict_set acc k v), rest4)
                      | _ => None
                      end
                  | None => None
                  end
              | _ => None
              end
          | None => None
          end
      | _ => None
      end
  end.

(** [json.loads]: one value between optional blanks, and nothing after. *)
Definition loads_text (text : string) : decoded :=
  let l := list_ascii_of_string text in
  match scan_value (2 * List.length l + 2) (skip_ws l) with
  | Some (v, rest) =>
      match skip_ws rest with
      | [] => Decoded v
      | _ => JSONDecodeError
      end
  | None => JSONDecodeError
  end.

Local Open Scope string_scope.

Definition decimal (n : Z) : string := DecimalString.NilZero.string_of_int (Z.to_int n).

Fixpoint escape (s : string) : string :=
  match s with
  | EmptyString => ""
  | String c rest =>
      (match c with
       | "034"%char => String "\" (String dq "")
       | "\"%char => "\\"
       | "010"%char => "\n"
       | "013"%char => "\r"
       | "009"%char => "\t"
       | "008"%char => "\b"
       | "012"%char => "\f"
       | _ => String c ""
       end) ++ escape rest
  end.

Definition quote (s : string) : string := String dq (escape s ++ String dq "").

Fixpoint join (parts : list string) : string :=
  match parts with
  | [] => ""
  | [p] => p
  | p :: rest => p ++ ", " ++ join rest
  end.

(** [json.dumps] with its default separators. *)
Fixpoint dumps_text (v : json) : string :=
  match v with
  | JNull => "null"
  | JBool true => "true"
  | JBool false => "false"
  | JInt n => decimal n
  | JFloat _ => "NaN"
  | JString s => quote s
  | JArray items =>
      "[" ++ join ((fix each (l : list json) : list string :=
                      match l with
                      | [] => []
                      | x :: r => dumps_text x :: each r
                      end) items) ++ "]"
  | JObject fields =>
      "{" ++ join ((fix each (l : dict) : list string :=
                      match l with
                      | [] => []
                      | (k, x) :: r => (quote k ++ ": " ++ dumps_text x) :: each r
                      end) fields) ++ "}"
  end.

Definition lower_char (c : ascii) : ascii :=
  let n := nat_of_ascii c in
  if ((65 <=? n) && (n <=? 90))%nat then ascii_of_nat (n + 32) else c.

Fixpoint lower (s : string) : string :=
  match s with
  | EmptyString => EmptyString
  | String c rest => String (lower_char c) (lower rest)
  end.

(** [str(v)] on the scalars; a container is outside the fragment. *)
Definition str_text (v : json) : string :=
  match v with
  | JString s => s
  | JNull => "None"
  | JBool true => "True"
  | JBool false => "False"
  | JInt n => decimal n
  | _ => dumps_text v
  end.

#[export] Instance runtime : PyRuntime := {|
  json_loads := loads_text;
  json_dumps := dumps_text;
  str_lower := lower;
  py_str := str_text;
  json_loads_empty_object := eq_refl;
  py_str_string := fun s => eq_refl
|}.

End Reference.


(** JSON texts are written below with an apostrophe for the double quote. *)
Definition text_char (c : ascii) : ascii :=
  if Ascii.eqb c "'" then Reference.dq else c.

Fixpoint json_text (s : string) : string :=
  match s with
  | EmptyString => EmptyString
  | String c rest => String (text_char c) (json_text rest)
  end.


(** ** The vocabulary of the specification *)

Section Vocabulary.

Context {rt : PyRuntime}.

(** The inbound request as the transport delivers it: [body] is a string,
    [{}] when the key is missing, and [headers] a mapping, empty when the key
    is missing. *)
Definition event_body (ev : dict) : option string :=
  match dict_get ev "body" with
  | None => Some "{}"
  | Some (JString text) => Some text
  | Some _ => None
  end.

Definition event_headers (ev : dict) : option dict :=
  match dict_get ev "headers" with
  | None => Some []
  | Some (JObject hs) => Some hs
  | Some _ => None
  end.

Definition carries (ev : dict) (text : string) (hs : dict) : Prop :=
  event_body ev = Some text /\ event_headers ev = Some hs.

(** The value of the header whose name is [name] when case is ignored: of
    the last such header the mapping lists, if it lists several. *)
Definition header_value (hs : dict) (name : string) : option json :=
  option_map snd (find (fun kv => String.eqb (str_lower (fst kv)) name) (rev hs)).

(** The supplied token: the [x-gitlab-token] header, or the empty string. *)
Definition supplied_token (hs : dict) : json :=
  match header_value hs "x-gitlab-token" with
  | Some t => t
  | None => JString ""
  end.

(** [project.path_with_namespace] of a payload whose [project], when it has
    one, is an object. *)
Definition project_path (payload : dict) : option json :=
  match dict_get payload "project" with
  | Some (JObject project) => dict_get project "path_with_namespace"
  | _ => None
  end.

Definition project_shaped (payload : dict) : Prop :=
  dict_get payload "project" = None \/
  exists project, dict_get payload "project" = Some (JObject project).

Definition secret_key (project : json) : string :=
  "gitlab/" ++ py_str project ++ "/token".

(** The secret the store holds under a key, when it answers with one. *)
Definition registered (w : World) (key : string) : option string :=
  match get_secret_value w key with
  | SecretResponse s => Some s
  | _ => None
  end.

(** The secret store answers the lookup: a secret, or that it has none. *)
Definition store_answers (w : World) (key : string) : Prop :=
  get_secret_value w key <> SecretsClientError.

(** Authentication in the words of the specification: a missing project
    path, a missing secret, and otherwise the comparison of the token with
    the secret. *)
Definition authenticate_as_stated (w : World) (payload hs : dict) : bool * json :=
  match project_path payload with
  | None => (false, JString "No project info in payload")
  | Some project =>
      match registered w (secret_key project) with
      | None => (false, JString ("No token registered for project " ++ py_str project))
      | Some secret =>
          if eq_str (supplied_token hs) secret then (true, JNull)
          else (false, JString "Invalid secret token")
      end
  end.

Definition present (v : option json) : option json :=
  match v with
  | Some x => if truthy x then Some x else None
  | None => None
  end.

Definition nonempty (s : option string) : option string :=
  match s with
  | Some x => if String.eqb x "" then None else Some x
  | None => None
  end.

(** Authentication as amended: an empty (falsy) project path counts as a
    missing one, and an empty secret as no secret. *)
Definition authenticate (w : World) (payload hs : dict) : bool * json :=
  match present (project_path payload) with
  | None => (false, JString "No project info in payload")
  | Some project =>
      match nonempty (registered w (secret_key project)) with
      | None => (false, JString ("No token registered for project " ++ py_str project))
      | Some secret =>
          if eq_str (supplied_token hs) secret then (true, JNull)
          else (false, JString "Invalid secret token")
      end
  end.

(** A label of the documented shape: an object with a string [title]. *)
Definition has_title (label : json) (title : string) : Prop :=
  exists d, label = JObject d /\ dict_get d "title" = Some (JString title).

(** The labels of a payload, none when the key is missing, and their
    titles. *)
Definition labelled (payload : dict) (titles : list string) : Prop :=
  exists items,
    (dict_get payload "labels" = Some (JArray items) \/
     dict_get payload "labels" = None /\ items = []) /\
    Forall2 has_title items titles.

(** [object_attributes.source_branch], [None] when either is missing. *)
Definition branch_of (payload : dict) (source_branch : json) : Prop :=
  dict_get payload "object_attributes" = None /\ source_branch = JNull \/
  exists oa, dict_get payload "object_attributes" = Some (JObject oa) /\
             source_branch = match dict_get oa "source_branch" with
                             | Some b => b
                             | None => JNull
                             end.

(** A request that parses, authenticates and announces a merge request of
    the documented shape: [titles] are its label titles in lower case, in
    payload order, and [source_branch] its source branch. *)
Inductive merge_request_event (w : World) (event : json) (titles : list string)
    (source_branch : json) : Prop :=
| MergeRequestEvent (ev : dict) (text : string) (hs payload : dict)
    (raw_titles : list string)
    (mr_is_event : event = JObject ev)
    (mr_carries : carries ev text hs)
    (mr_decodes : json_loads text = Decoded (JObject payload))
    (mr_authenticated :
       verify_gitlab_signature w (JObject payload) (JObject hs) = Ret (true, JNull))
    (mr_kind : dict_get payload "object_kind" = Some (JString "merge_request"))
    (mr_labelled : labelled payload raw_titles)
    (mr_titles : titles = map str_lower raw_titles)
    (mr_branch : branch_of payload source_branch).

(** The configured mapping, when the configuration is the text of a JSON
    object. *)
Definition configured (w : World) (mapping : dict) : Prop :=
  json_loads (label_pipeline_mapping_str w) = Decoded (JObject mapping).

(** The pipeline a label triggers: the mapping's entry, unless it is empty
    (falsy). *)
Definition pipeline_for (mapping : dict) (label : string) : option json :=
  present (dict_get mapping label).

(** The matching labels with their pipelines, in label order, one per
    occurrence. *)
Fixpoint matching (mapping : dict) (titles : list string) : list (string * json) :=
  match titles with
  | [] => []
  | label :: rest =>
      match pipeline_for mapping label with
      | Some pipeline => (label, pipeline) :: matching mapping rest
      | None => matching mapping rest
      end
  end.

Definition call_for (source_branch : json) (lp : string * json) : trigger_call :=
  {| call_name := snd lp;
     call_variables :=
       JArray [JObject [("name", JString "SOURCE_BRANCH"); ("value", source_branch)]] |}.

(** The execution ids the backend answers to a sequence of calls made
    after the calls [done]. *)
Fixpoint executions (w : World) (done calls : list trigger_call) : list string :=
  match calls with
  | [] => []
  | c :: rest =>
      match start_pipeline_execution w done c with
      | PipelineStarted execution_id =>
          execution_id :: executions w (done ++ [c])%list rest
      | StartFailed => []
      end
  end.

Definition entry_for (lpe : string * json * string) : json :=
  JObject [("label", JString (fst (fst lpe))); ("pipeline", snd (fst lpe));
           ("execution_id", JString (snd lpe))].

(** The pipeline backend starts every execution it is asked for. *)
Definition always_starts (w : World) : Prop :=
  forall done c, exists execution_id,
    start_pipeline_execution w done c = PipelineStarted execution_id.

Definition backend_failure (e : exn) : Prop :=
  e = SecretsManagerError \/ e = CodePipelineError.

(** A structured response: a status code and a JSON body with one
    explanatory message. *)
Definition structured (r : response) : Prop :=
  exists key msg, body r = json_dumps (JObject [(key, JString msg)]).

(** A payload of the documented shape: an object whose [project] and
    [object_attributes], where it has them, are objects, and whose
    [labels], where it has them, are a list of titled labels. *)
Definition shaped (payload : json) : Prop :=
  exists p, payload = JObject p /\
            project_shaped p /\
            (exists raw_titles, labelled p raw_titles) /\
            (exists source_branch, branch_of p source_branch).

(** A request of the documented shape, whose body the decoder either
    decodes or rejects as malformed. *)
Definition conforming (ev : dict) (text : string) (hs : dict) : Prop :=
  carries ev text hs /\
  json_loads text <> DecoderRaises /\
  forall payload, json_loads text = Decoded payload -> shaped payload.

(** The body parses, authentication succeeds and the event is a merge
    request. *)
Definition reaches_dispatch (w : World) (text : string) (hs : dict) : Prop :=
  exists payload,
    json_loads text = Decoded (JObject payload) /\
    verify_gitlab_signature w (JObject payload) (JObject hs) = Ret (true, JNull) /\
    dict_get payload "object_kind" = Some (JString "merge_request").

(** The same collaborators under another value of LABEL_PIPELINE_MAPPING. *)
Definition with_config (w : World) (config : option string) : World :=
  {| get_secret_value := get_secret_value w;
     start_pipeline_execution := start_pipeline_execution w;
     environ := fun name =>
       if String.eqb name "LABEL_PIPELINE_MAPPING" then config else environ w name |}.

(** The secret store answers the lookup a body gives rise to. *)
Definition store_answers_for (w : World) (text : string) : Prop :=
  forall payload project,
    json_loads text = Decoded (JObject payload) ->
    present (project_path payload) = Some project ->
    store_answers w (secret_key project).

(** The recoverable conditions: a malformed body, a failed authentication,
    another kind of event, a configuration that is not JSON, and a merge
    request none of whose labels has a pipeline. *)
Inductive recoverable (w : World) (text : string) (hs : dict) : Prop :=
| MalformedBody :
    json_loads text = JSONDecodeError -> recoverable w text hs
| Unauthorized (payload reason : json) :
    json_loads text = Decoded payload ->
    verify_gitlab_signature w payload (JObject hs) = Ret (false, reason) ->
    recoverable w text hs
| OtherEvent (payload : dict) :
    json_loads text = Decoded (JObject payload) ->
    verify_gitlab_signature w (JObject payload) (JObject hs) = Ret (true, JNull) ->
    dict_get payload "object_kind" <> Some (JString "merge_request") ->
    recoverable w text hs
| MalformedMapping :
    reaches_dispatch w text hs ->
    json_loads (label_pipeline_mapping_str w) = JSONDecodeError ->
    recoverable w text hs
| NoMatch (mapping : dict) :
    reaches_dispatch w text hs ->
    configured w mapping ->
    (forall payload raw_titles label,
        json_loads text = Decoded (JObject payload) ->
        labelled payload raw_titles ->
        In label (map str_lower raw_titles) ->
        pipeline_for mapping label = None) ->
    recoverable w text hs.

(** The configuration is the text of a JSON object, or not JSON at all. *)
Definition configuration_decides (w : World) : Prop :=
  json_loads (label_pipeline_mapping_str w) = JSONDecodeError \/
  exists mapping, configured w mapping.

(** The pipelines a label contributes to the calls. *)
Definition pipelines_of (mapping : dict) (label : string) : list json :=
  match pipeline_for mapping label with
  | Some pipeline => [pipeline]
  | None => []
  end.

Definition matches (mapping : dict) (label : string) : bool :=
  match pipeline_for mapping label with
  | Some _ => true
  | None => false
  end.

(** *** Three statements in the specification's own words *)

(** Authentication behaves exactly as [authenticate_as_stated]. *)
Definition authentication_as_stated (w : World) (payload hs : dict) : Prop :=
  project_shaped payload ->
  (forall project, project_path payload = Some project ->
                   store_answers w (secret_key project)) ->
  verify_gitlab_signature w (JObject payload) (JObject hs)
  = Ret (authenticate_as_stated w payload hs).

(** Every label with an entry in the mapping has its pipeline triggered. *)
Definition dispatch_as_stated (w : World) (event : json) : Prop :=
  forall titles source_branch mapping label pipeline,
    merge_request_event w event titles source_branch ->
    configured w mapping ->
    always_starts w ->
    In label titles ->
    dict_get mapping label = Some pipeline ->
    In (call_for source_branch (label, pipeline)) (snd (invoke w event)).

(** Only failures of the two backends propagate to the caller. *)
Definition propagation_as_stated (w : World) (event : json) : Prop :=
  forall e calls, invoke w event = (Raise e, calls) -> backend_failure e.

(** *** Four more statements in the specification's own words *)

(** A label's lowercased title is a key of the mapping. *)
Definition has_entry (mapping : dict) (label : string) : bool :=
  match dict_get mapping label with
  | Some _ => true
  | None => false
  end.

(** Exactly one trigger call is made per matching label occurrence. *)
Definition trigger_count_as_stated (w : World) (event : json) : Prop :=
  forall titles source_branch mapping,
    merge_request_event w event titles source_branch ->
    configured w mapping ->
    List.length (snd (invoke w event))
    = List.length (filter (has_entry mapping) titles).

(** An authenticated merge-request event none of whose labels has a key in
    the configured mapping gets the no-match answer, with no call. *)
Definition no_match_as_stated (w : World) (ev : dict) (text : string) (hs : dict) : Prop :=
  forall payload items mapping,
    carries ev text hs ->
    reaches_dispatch w text hs ->
    json_loads text = Decoded (JObject payload) ->
    dict_get payload "labels" = Some (JArray items) ->
    configured w mapping ->
    (forall label title, In label items -> has_title label title ->
                         dict_get mapping (str_lower title) = None) ->
    invoke w (JObject ev)
    = (Ret {| statusCode := 200;
              body := json_dumps
                        (JObject [("message",
                                   JString "No matching label for pipeline, skipped")]);
              headers := Some [("Content-Type", "application/json")] |}, []).

(** With a configuration that is malformed JSON, the 500 error is returned
    exactly when the body parses, authentication succeeds and the event is
    a merge request. *)
Definition mapping_order_as_stated (w : World) (ev : dict) (text : string) (hs : dict)
    : Prop :=
  carries ev text hs ->
  json_loads (label_pipeline_mapping_str w) = JSONDecodeError ->
  (invoke w (JObject ev)
   = (Ret {| statusCode := 500;
             body := json_dumps
                       (JObject [("error",
                                  JString "Invalid LABEL_PIPELINE_MAPPING env var")]);
             headers := None |}, [])
   <-> reaches_dispatch w text hs).

(** Without the variable, every authenticated merge-request event gets the
    no-match answer, with no call. *)
Definition missing_mapping_as_stated (w : World) (ev : dict) (text : string) (hs : dict)
    : Prop :=
  environ w "LABEL_PIPELINE_MAPPING" = None ->
  carries ev text hs ->
  reaches_dispatch w text hs ->
  invoke w (JObject ev)
  = (Ret {| statusCode := 200;
            body := json_dumps
                      (JObject [("message",
                                 JString "No matching label for pipeline, skipped")]);
            headers := Some [("Content-Type", "application/json")] |}, []).

End Vocabulary.

(** ** Example collaborators and requests

    The project [g/p] with the secret [secret123], a backend that numbers
    the executions of an invocation, and requests with one
    [X-Gitlab-Token] header. *)
Module Example.

Definition secrets (key : string) : secret_reply :=
  if String.eqb key "gitlab/g/p/token" then SecretResponse "secret123"
  else ResourceNotFoundException.

Definition starts (done : list trigger_call) (c : trigger_call) : start_reply :=
  PipelineStarted ("exec-" ++ Reference.decimal (Z.of_nat (List.length done + 1))).

Definition world (config : option string) : World :=
  {| get_secret_value := secrets;
     start_pipeline_execution := starts;
     environ := fun name =>
       if String.eqb name "LABEL_PIPELINE_MAPPING" then option_map json_text config
       else None |}.

Definition token_header (token : string) : dict :=
  [("X-Gitlab-Token", JString token)].

Definition request_fields (token : string) (body : string) : dict :=
  [("body", JString (json_text body)); ("headers", JObject (token_header token))].

Definition request (token : string) (body : string) : json :=
  JObject (request_fields token body).

Definition merge_request (labels : string) : string :=
  "{'object_kind':'merge_request','project':{'path_with_namespace':'g/p'},"
  ++ "'object_attributes':{'source_branch':'feature-x'},'labels':" ++ labels ++ "}".

Definition q1_config : option string := Some "{'q1':'PipelineQ1'}".

(** The payload of the specification's scenario, decoded. *)
Definition q1_payload : dict :=
  [("object_kind", JString "merge_request");
   ("project", JObject [("path_with_namespace", JString "g/p")]);
   ("object_attributes", JObject [("source_branch", JString "feature-x")]);
   ("labels", JArray [JObject [("title", JString "Q1")]])].

Definition q1_labels : string := "[{'title':'Q1'}]".

(** A payload whose project path is the empty string. *)
Definition empty_path_payload : dict :=
  [("project", JObject [("path_with_namespace", JString "")])].

(** One invocation under the reference runtime. *)
Definition run (config : option string) (event : json) :
    result response * list trigger_call :=
  @invoke Reference.runtime (world config) event.

End Example.

(** ** Collaborators that fail

    The example project with a secret store that is down, and with a
    pipeline backend that refuses the second execution of an invocation. *)
Module Outage.

Definition store_down (config : option string) : World :=
  {| get_secret_value := fun _ => SecretsClientError;
     start_pipeline_execution := Example.starts;
     environ := environ (Example.world config) |}.

Definition second_fails (done : list trigger_call) (c : trigger_call) : start_reply :=
  if Nat.eqb (List.length done) 1 then StartFailed else Example.starts done c.

Definition backend_flaky (config : option string) : World :=
  {| get_secret_value := Example.secrets;
     start_pipeline_execution := second_fails;
     environ := environ (Example.world config) |}.

Definition three_labels : string := "[{'title':'Q1'},{'title':'Q2'},{'title':'Q3'}]".

Definition three_config : option string := Some "{'q1':'A','q2':'B','q3':'C'}".

End Outage.


(** ** Dictionaries and headers *)

Lemma dict_get_set (d : dict) (k k' : string) (v : json) :
  dict_get (dict_set d k v) k' = if String.eqb k k' then Some v else dict_get d k'.
Proof.
  induction d as [| [k0 v0] d IH]; simpl.
  - reflexivity.
  - destruct (String.eqb k0 k) eqn:E; simpl.
    + apply String.eqb_eq in E; subst k0.
      destruct (String.eqb k k'); reflexivity.
    + rewrite IH.
      destruct (String.eqb k0 k') eqn:E0, (String.eqb k k') eqn:E1; try reflexivity.
      apply String.eqb_eq in E0, E1; subst.
      rewrite String.eqb_refl in E; discriminate.
  Qed.

Lemma eq_str_true (v : json) (s : string) : eq_str v s = true <-> v = JString s.
Proof.
  destruct v; simpl; split; intros H; try discriminate.
  - apply String.eqb_eq in H; now subst.
  - injection H as ->; apply String.eqb_refl.
Qed.

Section Facts.

Context {rt : PyRuntime} (w : World).

(** The dictionary with the lowered names holds, under a name, the value of
    the last header that has the name when case is ignored. *)
Lemma lower_keys_get (hs : dict) (name : string) :
  dict_get (lower_keys hs) name = header_value hs name.
Proof.
  unfold lower_keys, header_value.
  induction hs as [| [k v] hs IH] using rev_ind; simpl.
  - reflexivity.
  - rewrite fold_left_app, rev_app_distr; simpl.
    rewrite dict_get_set, IH.
    destruct (String.eqb (str_lower k) name); reflexivity.
Qed.

Lemma body_default (ev : dict) (text : string) :
  event_body ev = Some text ->
  match dict_get ev "body" with Some x => x | None => JString "{}" end = JString text.
Proof.
  unfold event_body; destruct (dict_get ev "body") as [[]|]; congruence.
Qed.

Lemma headers_default (ev hs : dict) :
  event_headers ev = Some hs ->
  match dict_get ev "headers" with Some x => x | None => JObject [] end = JObject hs.
Proof.
  unfold event_headers; destruct (dict_get ev "headers") as [[]|]; congruence.
Qed.

(** The handler on an event of the transport's shape, step by step. *)
Lemma invoke_steps (ev : dict) (text : string) (hs : dict) :
  carries ev text hs ->
  invoke w (JObject ev) =
  match json_loads text with
  | Decoded payload =>
      match verify_gitlab_signature w payload (JObject hs) with
      | Ret (is_valid, error_msg) =>
          if negb is_valid then (Ret (error_response 403 error_msg), [])
          else
            match py_get payload "object_kind" JNull with
            | Ret object_kind =>
                if negb (eq_str object_kind "merge_request")
                then (Ret not_merge_request_response, [])
                else dispatch w payload []
            | Raise e => (Raise e, [])
            end
      | Raise e => (Raise e, [])
      end
  | JSONDecodeError => (Ret (error_response 400 (JString "Invalid JSON payload")), [])
  | DecoderRaises => (Raise DecoderError, [])
  end.
Proof.
  intros [Hb Hh].
  unfold invoke, lambda_handler, bind, lift, ret; simpl.
  rewrite (body_default _ _ Hb), (headers_default _ _ Hh); simpl.
  destruct (json_loads text) as [payload | |]; try reflexivity.
  destruct (verify_gitlab_signature w payload (JObject hs)) as [[[] msg] | e];
    simpl; try reflexivity.
  destruct (py_get payload "object_kind" JNull) as [kind | e]; simpl; try reflexivity.
  destruct (eq_str kind "merge_request"); reflexivity.
Qed.

(** Authentication answers on an object only. *)
Lemma verified_is_object (payload : json) (hs : dict) (verdict : bool * json) :
  verify_gitlab_signature w payload (JObject hs) = Ret verdict ->
  exists d, payload = JObject d.
Proof.
  destruct payload; simpl; try discriminate.
  intros _; eexists; reflexivity.
Qed.

(** Authentication on a payload object is [authenticate]. *)
Lemma verify_authenticate (payload hs : dict) :
  project_shaped payload ->
  (forall project, present (project_path payload) = Some project ->
                   store_answers w (secret_key project)) ->
  verify_gitlab_signature w (JObject payload) (JObject hs)
  = Ret (authenticate w payload hs).
Proof.
  intros Hshape Hstore.
  unfold verify_gitlab_signature, authenticate, supplied_token; simpl.
  rewrite lower_keys_get.
  assert (Hpath : exists project_info,
             (match dict_get payload "project" with
             | Some x => x
             | None => JObject []
             end) = JObject project_info /\
             dict_get project_info "path_with_namespace" = project_path payload).
  { unfold project_path.
    destruct Hshape as [H | [pj H]]; rewrite H; eexists; split; reflexivity. }
  destruct Hpath as (project_info & -> & Hp); simpl.
  rewrite Hp; clear Hp.
  destruct (project_path payload) as [project |]; simpl in *; [| reflexivity].
  destruct (truthy project) eqn:Ht; simpl; [| reflexivity].
  specialize (Hstore project eq_refl).
  unfold get_project_token, registered, secret_key, store_answers in *.
  destruct (get_secret_value w ("gitlab/" ++ py_str project ++ "/token"))
    as [secret | |]; simpl; try reflexivity; [| congruence].
  destruct (String.eqb secret ""); simpl; [reflexivity |].
  destruct (eq_str _ secret); reflexivity.
Qed.

(** C2 (as amended).  Authentication, given a payload object whose project,
    if any, is an object, a header map and a secret store that answers, is
    exactly [authenticate]: the token is the value of the header named
    x-gitlab-token when case is ignored (the empty string without one); a
    project path that is missing or empty (falsy) fails with 'No project
    info in payload'; a secret that is missing or empty under
    gitlab/{project}/token fails with 'No token registered for project
    {project}'; otherwise authentication succeeds exactly when the token is
    the registered secret, and fails with 'Invalid secret token' if not. *)
Theorem verify_gitlab_signature_spec (payload hs : dict) :
  project_shaped payload ->
  (forall project, present (project_path payload) = Some project ->
                   store_answers w (secret_key project)) ->
  verify_gitlab_signature w (JObject payload) (JObject hs)
  = Ret (authenticate w payload hs).
Proof.
  exact (verify_authenticate payload hs).
Qed.

End Facts.

(** ** Parsing, authentication and the event filter *)

Section Front.

Context {rt : PyRuntime} (w : World).

(** C1.  A request whose supplied x-gitlab-token header value (found with
    the case of header names ignored) differs from the secret registered
    for the payload's project is answered with status 403 and the body
    [{error: reason}], where the reason is the one authentication gives,
    one of its three reasons, and no pipeline trigger call is made. *)
Theorem mismatched_token_is_forbidden (ev : dict) (text : string)
    (hs payload : dict) (project : json) (secret : string) :
  carries ev text hs ->
  json_loads text = Decoded (JObject payload) ->
  project_path payload = Some project ->
  registered w (secret_key project) = Some secret ->
  supplied_token hs <> JString secret ->
  exists reason,
    (reason = "No project info in payload" \/
     reason = "No token registered for project " ++ py_str project \/
     reason = "Invalid secret token") /\
    verify_gitlab_signature w (JObject payload) (JObject hs) = Ret (false, JString reason) /\
    invoke w (JObject ev)
    = (Ret {| statusCode := 403;
              body := json_dumps (JObject [("error", JString reason)]);
              headers := None |}, []).
Proof.
  intros Hc Hd Hp Hs Ht.
  assert (Hv : verify_gitlab_signature w (JObject payload) (JObject hs)
               = Ret (authenticate w payload hs)).
  { apply verify_authenticate.
    - right. unfold project_path in Hp.
      destruct (dict_get payload "project") as [[]|]; try discriminate.
      eexists; reflexivity.
    - intros project' Hp'. rewrite Hp in Hp'; simpl in Hp'.
      destruct (truthy project); [| discriminate].
      injection Hp' as <-. unfold store_answers, registered in *.
      destruct (get_secret_value w (secret_key project)); congruence. }
  assert (Hr : exists reason,
             (reason = "No project info in payload" \/
              reason = "No token registered for project " ++ py_str project \/
              reason = "Invalid secret token") /\
             authenticate w payload hs = (false, JString reason)).
  { unfold authenticate. rewrite Hp; simpl.
    destruct (truthy project); [| eexists; split; [left; reflexivity | reflexivity]].
    rewrite Hs; simpl.
    destruct (String.eqb secret "");
      [eexists; split; [right; left; reflexivity | reflexivity] |].
    destruct (eq_str (supplied_token hs) secret) eqn:E;
      [| eexists; split; [right; right; reflexivity | reflexivity]].
    apply eq_str_true in E; contradiction. }
  destruct Hr as (reason & Hcase & Hr). exists reason.
  rewrite Hr in Hv. split; [exact Hcase | split; [exact Hv |]].
  rewrite (invoke_steps w ev text hs Hc), Hd, Hv; reflexivity.
Qed.

(** The event filter on an authenticated request. *)
Lemma invoke_other_event (ev : dict) (text : string) (hs : dict)
    (payload : json) :
  carries ev text hs ->
  json_loads text = Decoded payload ->
  verify_gitlab_signature w payload (JObject hs) = Ret (true, JNull) ->
  (forall d, payload = JObject d ->
             dict_get d "object_kind" <> Some (JString "merge_request")) ->
  invoke w (JObject ev) = (Ret not_merge_request_response, []).
Proof.
  intros Hc Hd Hv Hk.
  rewrite (invoke_steps w ev text hs Hc), Hd, Hv; simpl.
  destruct (verified_is_object w _ _ _ Hv) as [d ->]; simpl.
  specialize (Hk d eq_refl).
  destruct (dict_get d "object_kind") as [kind |]; simpl; [| reflexivity].
  destruct (eq_str kind "merge_request") eqn:E; [| reflexivity].
  apply eq_str_true in E; subst; congruence.
Qed.

(** C3.  An authenticated request whose payload's object_kind is not the
    string merge_request, or is missing, is answered with status 200 and the
    body [{message: Not a merge request event}], and no pipeline trigger
    call is made, whatever labels the payload carries. *)
Theorem other_events_are_acknowledged (ev : dict) (text : string) (hs : dict)
    (payload : json) :
  carries ev text hs ->
  json_loads text = Decoded payload ->
  verify_gitlab_signature w payload (JObject hs) = Ret (true, JNull) ->
  (forall d, payload = JObject d ->
             dict_get d "object_kind" <> Some (JString "merge_request")) ->
  invoke w (JObject ev)
  = (Ret {| statusCode := 200;
            body := json_dumps (JObject [("message", JString "Not a merge request event")]);
            headers := None |}, []).
Proof.
  intros Hc Hd Hv Hk.
  rewrite (invoke_other_event ev text hs payload Hc Hd Hv Hk).
  reflexivity.
Qed.

(** C10.  An event without a body key is handled as the body [{}], which
    parses to an empty payload: the answer is not the 400 response for
    malformed input but status 403 with the body [{error: No project info in
    payload}], and no call is made. *)
Theorem missing_body_is_unauthorized (ev hs : dict) :
  dict_get ev "body" = None ->
  event_headers ev = Some hs ->
  invoke w (JObject ev)
  = (Ret {| statusCode := 403;
            body := json_dumps (JObject [("error", JString "No project info in payload")]);
            headers := None |}, []).
Proof.
  intros Hb Hh.
  assert (Hc : carries ev "{}" hs).
  { split; [| exact Hh]. unfold event_body; now rewrite Hb. }
  rewrite (invoke_steps w ev "{}" hs Hc), json_loads_empty_object.
  reflexivity.
Qed.

End Front.

(** ** The label dispatcher *)

Section Dispatcher.

Context {rt : PyRuntime} (w : World).

Lemma titles_of_labels (items : list json) (raw : list string) :
  Forall2 has_title items raw -> titles_of items = Ret (map str_lower raw).
Proof.
  induction 1 as [| label title items raw (d & -> & Hd) _ IH]; simpl.
  - reflexivity.
  - unfold label_title; simpl. rewrite Hd; simpl. rewrite IH; reflexivity.
Qed.

(** Lines 74 to 114 on a payload of the documented shape. *)
Lemma dispatch_steps (payload : dict) (raw : list string) (source_branch : json)
    (tr : list trigger_call) :
  labelled payload raw ->
  branch_of payload source_branch ->
  dispatch w (JObject payload) tr =
  match json_loads (label_pipeline_mapping_str w) with
  | Decoded mapping =>
      match trigger_labels w mapping source_branch (map str_lower raw) [] tr with
      | (Ret [], tr') => (Ret no_match_response, tr')
      | (Ret (t :: ts), tr') => (Ret (triggered_response (t :: ts)), tr')
      | (Raise e, tr') => (Raise e, tr')
      end
  | JSONDecodeError =>
      (Ret (error_response 500 (JString "Invalid LABEL_PIPELINE_MAPPING env var")), tr)
  | DecoderRaises => (Raise DecoderError, tr)
  end.
Proof.
  intros (items & Hl & Ht) Hb.
  unfold dispatch, bind, lift, ret; simpl.
  assert (Hlabels : label_titles_of
                      (match dict_get payload "labels" with
                       | Some x => x
                       | None => JArray []
                       end) = Ret (map str_lower raw)).
  { destruct Hl as [-> | [-> ->]]; simpl.
    - now apply titles_of_labels.
    - inversion Ht; reflexivity. }
  rewrite Hlabels.
  assert (Hbranch : exists oa,
             (match dict_get payload "object_attributes" with
              | Some x => x
              | None => JObject []
              end) = JObject oa /\
             (match dict_get oa "source_branch" with
              | Some b => b
              | None => JNull
              end) = source_branch).
  { destruct Hb as [[-> ->] | (oa & -> & ->)]; eexists; split; reflexivity. }
  destruct Hbranch as (oa & -> & Hsrc); simpl. rewrite Hsrc.
  destruct (json_loads (label_pipeline_mapping_str w)) as [mapping | |];
    try reflexivity.
  destruct (trigger_labels w mapping source_branch (map str_lower raw) [] tr)
    as [[[| t ts] | e] tr']; reflexivity.
Qed.

(** The handler on an authenticated merge-request event. *)
Lemma invoke_merge_request (event : json) (titles : list string) (source_branch : json) :
  merge_request_event w event titles source_branch ->
  invoke w event =
  match json_loads (label_pipeline_mapping_str w) with
  | Decoded mapping =>
      match trigger_labels w mapping source_branch titles [] [] with
      | (Ret [], tr') => (Ret no_match_response, tr')
      | (Ret (t :: ts), tr') => (Ret (triggered_response (t :: ts)), tr')
      | (Raise e, tr') => (Raise e, tr')
      end
  | JSONDecodeError =>
      (Ret (error_response 500 (JString "Invalid LABEL_PIPELINE_MAPPING env var")), [])
  | DecoderRaises => (Raise DecoderError, [])
  end.
Proof.
  intros [ev text hs payload raw -> Hc Hd Hv Hk Hl -> Hb].
  rewrite (invoke_steps w ev text hs Hc), Hd, Hv; simpl.
  rewrite Hk; simpl.
  apply dispatch_steps; assumption.
Qed.

(** The loop when no label has a pipeline: no call, whatever the backend. *)
Lemma trigger_labels_skip (mapping : dict) (source_branch : json)
    (titles : list string) :
  (forall label, In label titles -> pipeline_for mapping label = None) ->
  forall (acc : list json) (tr : list trigger_call),
    trigger_labels w (JObject mapping) source_branch titles acc tr = (Ret acc, tr).
Proof.
  induction titles as [| label rest IH]; intros Hnone acc tr; simpl.
  - reflexivity.
  - unfold bind at 1, lift; simpl.
    pose proof (Hnone label (or_introl eq_refl)) as Hl.
    unfold pipeline_for, present in Hl.
    destruct (dict_get mapping label) as [pipeline |]; simpl.
    + destruct (truthy pipeline); [discriminate |].
      apply IH. intros l Hin. apply Hnone. now right.
    + apply IH. intros l Hin. apply Hnone. now right.
Qed.

(** The loop with any backend: it runs to the first execution the backend
    refuses, or to the end. *)
Lemma trigger_labels_outcome (mapping : dict) (source_branch : json)
    (titles : list string) :
  forall (acc : list json) (tr : list trigger_call),
    trigger_labels w (JObject mapping) source_branch titles acc tr =
    let hits := matching mapping titles in
    let calls := map (call_for source_branch) hits in
    let ids := executions w tr calls in
    if Nat.eqb (List.length ids) (List.length calls)
    then (Ret (acc ++ map entry_for (combine hits ids))%list, (tr ++ calls)%list)
    else (Raise CodePipelineError, (tr ++ firstn (S (List.length ids)) calls)%list).
Proof.
  induction titles as [| label rest IH]; intros acc tr; simpl.
  - unfold ret. now rewrite !app_nil_r.
  - unfold bind at 1, lift; simpl.
    unfold pipeline_for, present.
    destruct (dict_get mapping label) as [pipeline |]; simpl; [| apply IH].
    destruct (truthy pipeline); [| apply IH].
    unfold bind, trigger_pipeline, branch_override.
    change {| call_name := pipeline;
              call_variables :=
                JArray [JObject [("name", JString "SOURCE_BRANCH");
                                 ("value", source_branch)]] |}
      with (call_for source_branch (label, pipeline)).
    simpl.
    destruct (start_pipeline_execution w tr (call_for source_branch (label, pipeline)))
      as [id |]; simpl.
    + rewrite IH. cbv zeta.
      destruct (Nat.eqb _ _); unfold triggered_entry, entry_for; simpl;
        now rewrite <- !app_assoc.
    + reflexivity.
Qed.

End Dispatcher.

Section Matching.

Context {rt : PyRuntime}.

Lemma matching_in (mapping : dict) (titles : list string) (label : string)
    (pipeline : json) :
  In (label, pipeline) (matching mapping titles) <->
  In label titles /\ dict_get mapping label = Some pipeline /\ truthy pipeline = true.
Proof.
  assert (Hp : forall l p, pipeline_for mapping l = Some p <->
                           dict_get mapping l = Some p /\ truthy p = true).
  { intros l p. unfold pipeline_for, present.
    destruct (dict_get mapping l) as [x |]; [| intuition discriminate].
    destruct (truthy x) eqn:E; split.
    - intros [= <-]; auto.
    - intros [[= <-] _]; reflexivity.
    - discriminate.
    - intros [[= <-] H]; congruence. }
  induction titles as [| l rest IH]; simpl.
  - tauto.
  - destruct (pipeline_for mapping l) as [p |] eqn:E; simpl; rewrite IH.
    + apply Hp in E. split.
      * intros [[= <- <-] | (? & ? & ?)]; auto.
      * intros ([<- | Hin] & Hd & Ht); [left | right; auto].
        destruct E as [E _]. congruence.
    + split; [intros (? & ? & ?); auto |].
      intros ([<- | Hin] & Hd & Ht); auto.
      assert (pipeline_for mapping l = Some pipeline) by (apply Hp; auto).
      congruence.
Qed.

Lemma matching_pipelines (mapping : dict) (titles : list string) :
  map snd (matching mapping titles) = flat_map (pipelines_of mapping) titles.
Proof.
  induction titles as [| l rest IH]; simpl; [reflexivity |].
  unfold pipelines_of at 1.
  destruct (pipeline_for mapping l); simpl; now rewrite IH.
Qed.

Lemma matching_length (mapping : dict) (titles : list string) :
  List.length (matching mapping titles) = List.length (filter (matches mapping) titles).
Proof.
  induction titles as [| l rest IH]; simpl; [reflexivity |].
  unfold matches at 1.
  destruct (pipeline_for mapping l); simpl; now rewrite IH.
Qed.

End Matching.

Section Dispatch.

Context {rt : PyRuntime} (w : World).

(** The handler on an authenticated merge-request event with a
    configuration that is a JSON object: the calls run to the first
    execution the backend refuses, or to the end. *)
Lemma invoke_outcome (event : json) (titles : list string) (source_branch : json)
    (mapping : dict) :
  merge_request_event w event titles source_branch ->
  configured w mapping ->
  let hits := matching mapping titles in
  let calls := map (call_for source_branch) hits in
  let ids := executions w [] calls in
  invoke w event =
  if Nat.eqb (List.length ids) (List.length calls)
  then
    (Ret match map entry_for (combine hits ids) with
         | [] =>
             {| statusCode := 200;
                body := json_dumps
                          (JObject [("message",
                                     JString "No matching label for pipeline, skipped")]);
                headers := Some [("Content-Type", "application/json")] |}
         | entries =>
             {| statusCode := 200;
                body := json_dumps (JObject [("triggered_pipelines", JArray entries)]);
                headers := Some [("Content-Type", "application/json")] |}
         end, calls)
  else (Raise CodePipelineError, firstn (S (List.length ids)) calls).
Proof.
  intros Hmr Hcfg. cbv zeta.
  rewrite (invoke_merge_request w event titles source_branch Hmr), Hcfg.
  rewrite (trigger_labels_outcome w mapping source_branch titles). cbv zeta. simpl.
  destruct (Nat.eqb _ _); [| reflexivity].
  destruct (map entry_for _); reflexivity.
Qed.

(** C4 (as amended).  For an authenticated merge-request event of the
    documented shape and the labels whose lowercased title maps to a
    non-empty (truthy) pipeline in the configured mapping, taken in payload
    order, when the backend starts the executions the invocation asks for:
    the pipeline-trigger operation is invoked once per such label with the
    pipeline as name and the variables list holding SOURCE_BRANCH with the
    value of object_attributes.source_branch, and the response is the 200
    whose body lists under triggered_pipelines, in the same order, one entry
    with the label, the pipeline and the backend's execution id per such
    label.  A label with no entry, or with an empty one, is skipped with no
    trigger call. *)
Theorem matching_labels_are_triggered (event : json) (titles : list string)
    (source_branch : json) (mapping : dict) :
  merge_request_event w event titles source_branch ->
  configured w mapping ->
  let hits := matching mapping titles in
  let calls := map (call_for source_branch) hits in
  let ids := executions w [] calls in
  hits <> [] ->
  List.length ids = List.length calls ->
  invoke w event
  = (Ret {| statusCode := 200;
            body := json_dumps
                      (JObject [("triggered_pipelines",
                                 JArray (map entry_for (combine hits ids)))]);
            headers := Some [("Content-Type", "application/json")] |},
     calls) /\
  (forall label pipeline,
      In (label, pipeline) hits <->
      In label titles /\ dict_get mapping label = Some pipeline /\
      truthy pipeline = true).
Proof.
  intros Hmr Hcfg hits calls ids Hne Hlen.
  split; [| intros; apply matching_in].
  rewrite (invoke_outcome event titles source_branch mapping Hmr Hcfg).
  fold hits. fold calls. fold ids.
  rewrite Hlen, Nat.eqb_refl.
  destruct (map entry_for (combine hits ids)) eqn:E; [| reflexivity].
  exfalso. apply (f_equal (@List.length json)) in E.
  rewrite length_map, length_combine, Hlen in E.
  unfold calls in E. rewrite length_map, Nat.min_id in E.
  destruct hits; [contradiction | discriminate].
Qed.

(** C5 (as amended).  Within one invocation a matching label occurrence,
    one whose lowercased title has a non-empty (truthy) entry in the
    mapping, never causes more than one pipeline trigger call: the calls
    made are, in label order, those of the matching occurrences up to and
    including the first execution the backend refuses.  When the backend
    starts the executions the invocation asks for, exactly one call is made
    per matching occurrence, and one result entry: the calls name the
    pipeline of each matching occurrence with no deduplication, so two
    distinct matching labels with the same pipeline trigger it twice and
    give two entries. *)
Theorem one_trigger_per_matching_label (event : json) (titles : list string)
    (source_branch : json) (mapping : dict) :
  merge_request_event w event titles source_branch ->
  configured w mapping ->
  let calls := map (call_for source_branch) (matching mapping titles) in
  let ids := executions w [] calls in
  snd (invoke w event) = firstn (S (List.length ids)) calls /\
  (List.length ids = List.length calls ->
   exists entries,
     invoke w event
     = (Ret match entries with
            | [] =>
                {| statusCode := 200;
                   body := json_dumps
                             (JObject [("message",
                                        JString "No matching label for pipeline, skipped")]);
                   headers := Some [("Content-Type", "application/json")] |}
            | _ =>
                {| statusCode := 200;
                   body := json_dumps (JObject [("triggered_pipelines", JArray entries)]);
                   headers := Some [("Content-Type", "application/json")] |}
            end, calls) /\
     List.length calls = List.length (filter (matches mapping) titles) /\
     List.length entries = List.length (filter (matches mapping) titles) /\
     map call_name calls = flat_map (pipelines_of mapping) titles /\
     (forall l1 l2 pipeline,
         titles = [l1; l2] -> l1 <> l2 ->
         pipeline_for mapping l1 = Some pipeline ->
         pipeline_for mapping l2 = Some pipeline ->
         map call_name calls = [pipeline; pipeline] /\ List.length entries = 2%nat)).
Proof.
  intros Hmr Hcfg calls ids.
  pose proof (invoke_outcome event titles source_branch mapping Hmr Hcfg) as Hi.
  cbv zeta in Hi. fold calls in Hi. fold ids in Hi.
  split.
  - rewrite Hi. destruct (Nat.eqb (List.length ids) (List.length calls)) eqn:E.
    + apply Nat.eqb_eq in E. simpl snd. rewrite E.
      symmetry. apply firstn_all2. lia.
    + reflexivity.
  - intros Hlen. rewrite Hlen, Nat.eqb_refl in Hi.
    exists (map entry_for (combine (matching mapping titles) ids)).
    split; [rewrite Hi; destruct (map entry_for _); reflexivity |].
    assert (Hcalls : map call_name calls = flat_map (pipelines_of mapping) titles).
    { unfold calls. rewrite map_map. rewrite <- matching_pipelines. reflexivity. }
    assert (Hn : List.length calls = List.length (filter (matches mapping) titles)).
    { unfold calls. rewrite length_map. apply matching_length. }
    assert (Hentries : List.length
                         (map entry_for (combine (matching mapping titles) ids))
                       = List.length (filter (matches mapping) titles)).
    { rewrite length_map, length_combine, Hlen.
      unfold calls at 1. rewrite length_map, Nat.min_id. apply matching_length. }
    split; [exact Hn |].
    split; [exact Hentries |].
    split; [exact Hcalls |].
    intros l1 l2 pipeline -> _ Hp1 Hp2. split.
    + rewrite Hcalls. simpl. unfold pipelines_of. now rewrite Hp1, Hp2.
    + rewrite Hentries. simpl. unfold matches. now rewrite Hp1, Hp2.
Qed.

(** A merge request none of whose labels has a pipeline. *)
Lemma invoke_no_match (event : json) (titles : list string)
    (source_branch : json) (mapping : dict) :
  merge_request_event w event titles source_branch ->
  configured w mapping ->
  (forall label, In label titles -> pipeline_for mapping label = None) ->
  invoke w event = (Ret no_match_response, []).
Proof.
  intros Hmr Hcfg Hnone.
  rewrite (invoke_merge_request w event titles source_branch Hmr), Hcfg.
  now rewrite trigger_labels_skip.
Qed.

(** C6 (as amended).  For an authenticated merge-request event of the
    documented shape (labels missing or a list of objects with string
    titles, object_attributes missing or an object) in which no label's
    lowercased title is a key of the configured mapping, a JSON object (in
    particular with no labels at all), the handler makes no pipeline
    trigger call and answers with status 200 and the body [{message: No
    matching label for pipeline, skipped}], not with an empty
    triggered_pipelines list. *)
Theorem unmatched_labels_are_skipped (event : json) (titles : list string)
    (source_branch : json) (mapping : dict) :
  merge_request_event w event titles source_branch ->
  configured w mapping ->
  (forall label, In label titles -> dict_get mapping label = None) ->
  invoke w event
  = (Ret {| statusCode := 200;
            body := json_dumps
                      (JObject [("message",
                                 JString "No matching label for pipeline, skipped")]);
            headers := Some [("Content-Type", "application/json")] |}, []).
Proof.
  intros Hmr Hcfg Hnone.
  rewrite (invoke_no_match event titles source_branch mapping Hmr Hcfg).
  - reflexivity.
  - intros label Hin. unfold pipeline_for. now rewrite (Hnone label Hin).
Qed.

End Dispatch.

(** ** The order of the steps *)

Section Order.

Context {rt : PyRuntime} (w : World).

Ltac split_match H :=
  match type of H with
  | context [match ?x with _ => _ end] => destruct x eqn:?; try discriminate H
  end.

(** A response with status 500 comes from the configuration only. *)
Lemma internal_error_needs_malformed_mapping (event : json) (r : response)
    (calls : list trigger_call) :
  invoke w event = (Ret r, calls) ->
  statusCode r = 500 ->
  json_loads (label_pipeline_mapping_str w) = JSONDecodeError.
Proof.
  unfold invoke, lambda_handler, dispatch, bind, lift, ret.
  intros H Hs.
  repeat split_match H;
    try (injection H as <- <-; simpl in Hs; discriminate Hs).
  all: match goal with
       | E : loads (JString (label_pipeline_mapping_str w)) = Ret None |- _ =>
           unfold loads in E;
           destruct (json_loads (label_pipeline_mapping_str w)); congruence
       end.
Qed.

(** The verdicts of authentication on a payload of the documented shape. *)
Lemma verify_verdict (payload hs : dict) :
  project_shaped payload ->
  (exists reason,
      verify_gitlab_signature w (JObject payload) (JObject hs)
      = Ret (false, JString reason)) \/
  verify_gitlab_signature w (JObject payload) (JObject hs) = Ret (true, JNull) \/
  verify_gitlab_signature w (JObject payload) (JObject hs) = Raise SecretsManagerError.
Proof.
  intros Hshape.
  unfold verify_gitlab_signature; simpl.
  assert (Hpath : exists project_info,
             (match dict_get payload "project" with
              | Some x => x
              | None => JObject []
              end) = JObject project_info).
  { destruct Hshape as [H | [pj H]]; rewrite H; eexists; reflexivity. }
  destruct Hpath as (project_info & ->); simpl.
  destruct (truthy _); simpl; [| left; eexists; reflexivity].
  unfold get_project_token.
  destruct (get_secret_value w _) as [secret | |]; simpl; auto.
  - destruct (String.eqb secret ""); [left; eexists; reflexivity |].
    destruct (negb _); [left; eexists; reflexivity | auto].
  - left; eexists; reflexivity.
Qed.

(** A failed authentication gives its reason as a string. *)
Lemma verify_reason (payload headers reason : json) :
  verify_gitlab_signature w payload headers = Ret (false, reason) ->
  exists s, reason = JString s.
Proof.
  unfold verify_gitlab_signature, rbind.
  intros H.
  repeat split_match H; injection H as <-; eexists; reflexivity.
Qed.

(** The loop raises nothing but a failure of the pipeline backend. *)
Lemma trigger_labels_raises (mapping : dict) (source_branch : json)
    (titles : list string) :
  forall acc tr e tr',
    trigger_labels w (JObject mapping) source_branch titles acc tr = (Raise e, tr') ->
    e = CodePipelineError.
Proof.
  induction titles as [| label rest IH]; intros acc tr e tr'; simpl.
  - discriminate.
  - unfold bind at 1, lift; simpl.
    destruct (truthy _); [| apply IH].
    unfold bind, trigger_pipeline.
    destruct (start_pipeline_execution w tr _).
    + apply IH.
    + now intros [= <- _].
Qed.

(** Authentication reads the secret store only. *)
Lemma verify_same_store (w' : World) (payload headers : json) :
  get_secret_value w' = get_secret_value w ->
  verify_gitlab_signature w' payload headers
  = verify_gitlab_signature w payload headers.
Proof.
  intros Hs. unfold verify_gitlab_signature, get_project_token.
  now rewrite Hs.
Qed.

(** The steps before the dispatch on a request of the documented shape:
    the four ways the handler can stop, which depend on the secret store
    only, or a merge request to dispatch. *)
Lemma front_cases (ev : dict) (text : string) (hs : dict) :
  conforming ev text hs ->
  (json_loads text = JSONDecodeError /\
   forall w', get_secret_value w' = get_secret_value w ->
     invoke w' (JObject ev)
     = (Ret (error_response 400 (JString "Invalid JSON payload")), []))
  \/
  (exists payload reason,
      json_loads text = Decoded (JObject payload) /\
      verify_gitlab_signature w (JObject payload) (JObject hs)
      = Ret (false, JString reason) /\
      forall w', get_secret_value w' = get_secret_value w ->
        invoke w' (JObject ev) = (Ret (error_response 403 (JString reason)), []))
  \/
  (exists payload,
      json_loads text = Decoded (JObject payload) /\
      verify_gitlab_signature w (JObject payload) (JObject hs)
      = Raise SecretsManagerError /\
      forall w', get_secret_value w' = get_secret_value w ->
        invoke w' (JObject ev) = (Raise SecretsManagerError, []))
  \/
  (exists payload,
      json_loads text = Decoded (JObject payload) /\
      verify_gitlab_signature w (JObject payload) (JObject hs) = Ret (true, JNull) /\
      dict_get payload "object_kind" <> Some (JString "merge_request") /\
      forall w', get_secret_value w' = get_secret_value w ->
        invoke w' (JObject ev) = (Ret not_merge_request_response, []))
  \/
  (reaches_dispatch w text hs /\
   exists titles source_branch,
     merge_request_event w (JObject ev) titles source_branch).
Proof.
  intros (Hc & Hnr & Hshaped).
  destruct (json_loads text) as [payload | |] eqn:Hd; [| | congruence].
  2: { left. split; [reflexivity |]. intros w' _.
       now rewrite (invoke_steps w' ev text hs Hc), Hd. }
  destruct (Hshaped payload eq_refl) as (p & -> & Hproj & [raw Hl] & [src Hb]).
  right.
  destruct (verify_verdict p hs Hproj) as [[reason Hv] | [Hv | Hv]].
  - left. exists p, reason. repeat split; auto. intros w' Hs.
    now rewrite (invoke_steps w' ev text hs Hc), Hd, (verify_same_store w' _ _ Hs), Hv.
  - right; right.
    destruct (dict_get p "object_kind") as [kind |] eqn:Hk.
    + destruct (eq_str kind "merge_request") eqn:E.
      * right. apply eq_str_true in E; subst kind.
        split; [exists p; auto |].
        exists (map str_lower raw), src.
        now apply (MergeRequestEvent w _ _ _ ev text hs p raw).
      * left. exists p. repeat split; auto.
        -- rewrite Hk. intros [= ->]. simpl in E. discriminate.
        -- intros w' Hs.
           rewrite (invoke_steps w' ev text hs Hc), Hd, (verify_same_store w' _ _ Hs), Hv.
           simpl. now rewrite Hk, E.
    + left. exists p. repeat split; auto.
      * rewrite Hk. discriminate.
      * intros w' Hs.
        rewrite (invoke_steps w' ev text hs Hc), Hd, (verify_same_store w' _ _ Hs), Hv.
        simpl. now rewrite Hk.
  - right; left. exists p. repeat split; auto. intros w' Hs.
    now rewrite (invoke_steps w' ev text hs Hc), Hd, (verify_same_store w' _ _ Hs), Hv.
Qed.

(** C7 (as amended).  The label-to-pipeline mapping is loaded only after parsing,
    authentication and the event filter have succeeded: for a request of
    the documented shape, with a secret store that answers and a
    LABEL_PIPELINE_MAPPING that is malformed JSON, the handler returns the
    500 'Invalid LABEL_PIPELINE_MAPPING env var' error exactly when the body
    parses, authentication succeeds and object_kind is merge_request;
    otherwise it returns the terminal response of the earlier step (400,
    403 or the neutral 200), the same whatever the configuration is. *)
Theorem malformed_mapping_is_reported_last (ev : dict) (text : string) (hs : dict) :
  conforming ev text hs ->
  store_answers_for w text ->
  json_loads (label_pipeline_mapping_str w) = JSONDecodeError ->
  (invoke w (JObject ev)
   = (Ret {| statusCode := 500;
             body := json_dumps
                       (JObject [("error",
                                  JString "Invalid LABEL_PIPELINE_MAPPING env var")]);
             headers := None |}, [])
   <-> reaches_dispatch w text hs) /\
  (~ reaches_dispatch w text hs ->
   (invoke w (JObject ev)
    = (Ret {| statusCode := 400;
              body := json_dumps (JObject [("error", JString "Invalid JSON payload")]);
              headers := None |}, []) \/
    (exists reason,
        invoke w (JObject ev)
        = (Ret {| statusCode := 403;
                   body := json_dumps (JObject [("error", JString reason)]);
                   headers := None |}, [])) \/
    invoke w (JObject ev)
    = (Ret {| statusCode := 200;
              body := json_dumps
                        (JObject [("message", JString "Not a merge request event")]);
              headers := None |}, [])) /\
   forall config,
     invoke (with_config w config) (JObject ev) = invoke w (JObject ev)).
Proof.
  intros Hconf Hstore Hcfg.
  destruct (front_cases ev text hs Hconf)
    as [[Hd Hi] | [(p & reason & Hd & Hv & Hi) | [(p & Hd & Hv & Hi)
       | [(p & Hd & Hv & Hk & Hi) | [Hreach (titles & src & Hmr)]]]]].
  - assert (Hno : ~ reaches_dispatch w text hs)
      by (intros (p & Hd' & _); congruence).
    split; [split; [| tauto] | intros _; split].
    + rewrite (Hi w eq_refl). unfold error_response. intros [=].
    + left. apply (Hi w eq_refl).
    + intros config. now rewrite (Hi w eq_refl), (Hi (with_config w config) eq_refl).
  - assert (Hno : ~ reaches_dispatch w text hs).
    { intros (p' & Hd' & Hv' & _).
      rewrite Hd in Hd'. injection Hd' as <-. congruence. }
    split; [split; [| tauto] | intros _; split].
    + rewrite (Hi w eq_refl). unfold error_response. intros [=].
    + right; left. exists reason. apply (Hi w eq_refl).
    + intros config. now rewrite (Hi w eq_refl), (Hi (with_config w config) eq_refl).
  - exfalso.
    assert (Hproj : project_shaped p).
    { destruct Hconf as (_ & _ & Hshaped).
      destruct (Hshaped _ Hd) as (p' & [= <-] & Hproj & _). exact Hproj. }
    rewrite (verify_authenticate w p hs Hproj) in Hv; [discriminate |].
    intros project Hp. apply (Hstore p project Hd Hp).
  - assert (Hno : ~ reaches_dispatch w text hs).
    { intros (p' & Hd' & _ & Hk').
      rewrite Hd in Hd'. injection Hd' as <-. contradiction. }
    split; [split; [| tauto] | intros _; split].
    + rewrite (Hi w eq_refl). unfold not_merge_request_response, error_response.
      intros [=].
    + right; right. apply (Hi w eq_refl).
    + intros config. now rewrite (Hi w eq_refl), (Hi (with_config w config) eq_refl).
  - split; [| tauto].
    split; [intros _; exact Hreach | intros _].
    now rewrite (invoke_merge_request w _ titles src Hmr), Hcfg.
Qed.

(** C9 (as amended).  Without a LABEL_PIPELINE_MAPPING variable the handler takes the
    configuration to be the empty mapping: it never answers with status
    500, and every authenticated merge-request event of the documented
    shape gets the 200 answer
    'No matching label for pipeline, skipped' with no trigger call. *)
Theorem missing_mapping_is_empty :
  environ w "LABEL_PIPELINE_MAPPING" = None ->
  (forall event r calls, invoke w event = (Ret r, calls) -> statusCode r <> 500) /\
  (forall event titles source_branch,
      merge_request_event w event titles source_branch ->
      invoke w event
      = (Ret {| statusCode := 200;
                body := json_dumps
                          (JObject [("message",
                                     JString "No matching label for pipeline, skipped")]);
                headers := Some [("Content-Type", "application/json")] |}, [])).
Proof.
  intros Henv.
  assert (Hcfg : configured w []).
  { unfold configured, label_pipeline_mapping_str. rewrite Henv.
    apply json_loads_empty_object. }
  split.
  - intros event r calls Hi Hs.
    pose proof (internal_error_needs_malformed_mapping event r calls Hi Hs) as Hbad.
    unfold configured in Hcfg. congruence.
  - intros event titles src Hmr.
    apply (invoke_no_match w event titles src [] Hmr Hcfg).
    reflexivity.
Qed.

(** C8 (as amended).  For a request of the documented shape under a
    recoverable condition (a malformed JSON body, a failed authentication,
    an event that is not a merge request, a configuration that is not valid
    JSON, or a merge request none of whose labels has a pipeline in the
    configured mapping) the handler returns a structured response, a status
    code and a JSON body with an explanatory message, and raises nothing;
    and when the configuration is either a JSON object or not valid JSON,
    such a request lets only failures of the secret store and of the
    pipeline trigger propagate. *)
Theorem recoverable_conditions_are_reported (ev : dict) (text : string) (hs : dict) :
  conforming ev text hs ->
  (recoverable w text hs ->
   exists r, invoke w (JObject ev) = (Ret r, []) /\ structured r) /\
  (configuration_decides w ->
   forall e calls, invoke w (JObject ev) = (Raise e, calls) -> backend_failure e).
Proof.
  intros Hconf.
  assert (Hnot : forall p, json_loads text = Decoded (JObject p) ->
                           dict_get p "object_kind" <> Some (JString "merge_request") ->
                           ~ reaches_dispatch w text hs).
  { intros p Hd Hk (p' & Hd' & _ & Hk').
    rewrite Hd in Hd'. injection Hd' as <-. contradiction. }
  destruct (front_cases ev text hs Hconf)
    as [[Hd Hi] | [(p & reason & Hd & Hv & Hi) | [(p & Hd & Hv & Hi)
       | [(p & Hd & Hv & Hk & Hi) | [Hreach (titles & src & Hmr)]]]]].
  - split.
    + intros _. eexists; split; [apply (Hi w eq_refl) |].
      eexists; eexists; reflexivity.
    + intros _ e calls. rewrite (Hi w eq_refl). discriminate.
  - split.
    + intros _. eexists; split; [apply (Hi w eq_refl) |].
      eexists; eexists; reflexivity.
    + intros _ e calls. rewrite (Hi w eq_refl). discriminate.
  - split.
    + intros Hrec. exfalso.
      destruct Hrec as [Hd' | payload reason Hd' Hv' | p' Hd' Hv' _
                       | (p' & Hd' & Hv' & _) _ | mapping (p' & Hd' & Hv' & _) _ _];
        rewrite Hd in Hd'; try discriminate; injection Hd' as <-; congruence.
    + intros _ e calls. rewrite (Hi w eq_refl). intros [= <- _]. now left.
  - split.
    + intros _. eexists; split; [apply (Hi w eq_refl) |].
      eexists; eexists; reflexivity.
    + intros _ e calls. rewrite (Hi w eq_refl). discriminate.
  - rewrite (invoke_merge_request w _ titles src Hmr).
    split.
    + intros Hrec.
      destruct Hrec as [Hd' | payload reason Hd' Hv' | p' Hd' Hv' Hk'
                       | _ Hcfg | mapping _ Hcfg Hnone].
      * destruct Hreach as (p & Hd & _). congruence.
      * destruct Hreach as (p & Hd & Hv & _).
        rewrite Hd in Hd'. injection Hd' as <-. congruence.
      * destruct Hreach as (p & Hd & _ & Hk).
        rewrite Hd in Hd'. injection Hd' as <-. contradiction.
      * rewrite Hcfg. eexists; split; [reflexivity |].
        eexists; eexists; reflexivity.
      * rewrite Hcfg. rewrite trigger_labels_skip.
        -- eexists; split; [reflexivity |]. eexists; eexists; reflexivity.
        -- destruct Hmr as [ev' text' hs' p raw [= <-] Hc Hd _ _ Hl -> _].
           destruct Hconf as ((Hb & _) & _). destruct Hc as (Hb' & _).
           rewrite Hb in Hb'. injection Hb' as <-.
           intros label Hin. apply (Hnone p raw label Hd Hl Hin).
    + intros [Hcfg | [mapping Hcfg]] e calls; rewrite Hcfg; [discriminate |].
      destruct (trigger_labels w (JObject mapping) src titles [] [])
        as [[[| t ts] | e'] tr'] eqn:Ht; try discriminate.
      intros [= <- _]. right.
      apply (trigger_labels_raises mapping src titles _ _ _ _ Ht).
Qed.

End Order.

(** ** The scenarios of the specification, and the claims on examples *)

Section Examples.

#[local] Existing Instance Reference.runtime.

Import Example.

Example scenario_triggered :
  run q1_config (request "secret123" (merge_request q1_labels))
  = (Ret {| statusCode := 200;
            body := json_text
              ("{'triggered_pipelines': [{'label': 'q1', 'pipeline': 'PipelineQ1', "
               ++ "'execution_id': 'exec-1'}]}");
            headers := Some [("Content-Type", "application/json")] |},
     [{| call_name := JString "PipelineQ1";
         call_variables :=
           JArray [JObject [("name", JString "SOURCE_BRANCH");
                            ("value", JString "feature-x")]] |}]).
Proof. vm_compute. reflexivity. Qed.

Example scenario_wrong_token :
  run q1_config (request "wrong" (merge_request q1_labels))
  = (Ret {| statusCode := 403;
            body := json_text "{'error': 'Invalid secret token'}";
            headers := None |}, []).
Proof. vm_compute. reflexivity. Qed.

Example scenario_note :
  run q1_config
    (request "secret123" "{'object_kind':'note','project':{'path_with_namespace':'g/p'}}")
  = (Ret {| statusCode := 200;
            body := json_text "{'message': 'Not a merge request event'}";
            headers := None |}, []).
Proof. vm_compute. reflexivity. Qed.

Example scenario_not_json :
  run q1_config (request "secret123" "{not json")
  = (Ret {| statusCode := 400;
            body := json_text "{'error': 'Invalid JSON payload'}";
            headers := None |}, []).
Proof. vm_compute. reflexivity. Qed.

(** The name of the header is matched whatever its case. *)
Example header_name_case :
  supplied_token [("x-GITLAB-token", JString "secret123")] = JString "secret123".
Proof. reflexivity. Qed.

(** Two labels with the same pipeline trigger it twice. *)
Example same_pipeline_twice :
  map call_name
    (snd (run (Some "{'q1':'P', 'q2':'P'}")
            (request "secret123" (merge_request "[{'title':'Q1'},{'title':'Q2'}]"))))
  = [JString "P"; JString "P"].
Proof. vm_compute. reflexivity. Qed.

(** A body that is JSON but not an object, and a label without a title,
    make the handler raise. *)
Example array_body_raises :
  run q1_config (request "secret123" "[]") = (Raise AttributeError, []).
Proof. vm_compute. reflexivity. Qed.

Example untitled_label_raises :
  run q1_config (request "secret123" (merge_request "[{'name':'Q1'}]"))
  = (Raise KeyError, []).
Proof. vm_compute. reflexivity. Qed.

Lemma request_carries (token body : string) :
  carries (request_fields token body) (json_text body) (token_header token).
Proof. split; reflexivity. Qed.

Lemma q1_decodes : json_loads (json_text (merge_request q1_labels)) = Decoded (JObject q1_payload).
Proof. vm_compute. reflexivity. Qed.

Lemma q1_labelled : labelled q1_payload ["Q1"].
Proof.
  eexists; split; [left; reflexivity |].
  repeat constructor. eexists; split; reflexivity.
Qed.

Lemma q1_branch : branch_of q1_payload (JString "feature-x").
Proof. right. eexists; split; reflexivity. Qed.

(** The scenario's request is an authenticated merge-request event,
    whatever the configuration. *)
Lemma q1_merge_request (config : option string) :
  merge_request_event (world config) (request "secret123" (merge_request q1_labels))
    ["q1"] (JString "feature-x").
Proof.
  apply (MergeRequestEvent _ _ _ _ (request_fields "secret123" (merge_request q1_labels))
           (json_text (merge_request q1_labels)) (token_header "secret123")
           q1_payload ["Q1"]).
  - reflexivity.
  - apply request_carries.
  - exact q1_decodes.
  - vm_compute. reflexivity.
  - reflexivity.
  - exact q1_labelled.
  - reflexivity.
  - exact q1_branch.
Qed.

Lemma starts_always (config : option string) : always_starts (world config).
Proof. intros done c. eexists; reflexivity. Qed.

Lemma q1_shaped : shaped (JObject q1_payload).
Proof.
  exists q1_payload. split; [reflexivity |]. split; [| split].
  - right. eexists; reflexivity.
  - exists ["Q1"]. exact q1_labelled.
  - eexists. exact q1_branch.
Qed.

Lemma q1_conforming :
  conforming (request_fields "secret123" (merge_request q1_labels))
    (json_text (merge_request q1_labels)) (token_header "secret123").
Proof.
  split; [apply request_carries | split].
  - rewrite q1_decodes. discriminate.
  - intros payload. rewrite q1_decodes. intros [= <-]. exact q1_shaped.
Qed.

Lemma q1_reaches_dispatch (config : option string) :
  reaches_dispatch (world config) (json_text (merge_request q1_labels))
    (token_header "secret123").
Proof.
  exists q1_payload. split; [exact q1_decodes | split].
  - vm_compute. reflexivity.
  - reflexivity.
Qed.

(** C1, on the scenario with the token [wrong]. *)
Lemma mismatched_token_is_forbidden_witness :
  exists reason,
    (reason = "No project info in payload" \/
     reason = "No token registered for project " ++ py_str (JString "g/p") \/
     reason = "Invalid secret token") /\
    verify_gitlab_signature (world q1_config) (JObject q1_payload)
      (JObject (token_header "wrong")) = Ret (false, JString reason) /\
    invoke (world q1_config) (request "wrong" (merge_request q1_labels))
    = (Ret {| statusCode := 403;
              body := json_dumps (JObject [("error", JString reason)]);
              headers := None |}, []).
Proof.
  apply (mismatched_token_is_forbidden (world q1_config)
           (request_fields "wrong" (merge_request q1_labels))
           (json_text (merge_request q1_labels)) (token_header "wrong")
           q1_payload (JString "g/p") "secret123").
  - split; reflexivity.
  - vm_compute; reflexivity.
  - reflexivity.
  - reflexivity.
  - vm_compute. discriminate.
Defined.

(** C2 as stated fails on a project path that is present and empty: the
    handler answers 'No project info in payload', the statement 'No token
    registered for project '. *)
Lemma empty_project_path_counterexample :
  ~ authentication_as_stated (world None) empty_path_payload [].
Proof.
  intros H.
  assert (Hshape : project_shaped empty_path_payload)
    by (right; eexists; reflexivity).
  assert (Hstore : forall project,
             project_path empty_path_payload = Some project ->
             store_answers (world None) (secret_key project)).
  { intros project [= <-]. vm_compute. discriminate. }
  specialize (H Hshape Hstore).
  vm_compute in H. discriminate H.
Qed.

Example empty_project_path_values :
  verify_gitlab_signature (world None) (JObject empty_path_payload) (JObject [])
  = Ret (false, JString "No project info in payload") /\
  authenticate_as_stated (world None) empty_path_payload []
  = (false, JString "No token registered for project ").
Proof. split; vm_compute; reflexivity. Qed.

(** C2 as amended, on the scenario's payload and token. *)
Lemma verify_gitlab_signature_spec_witness :
  verify_gitlab_signature (world None) (JObject q1_payload)
    (JObject (token_header "secret123"))
  = Ret (authenticate (world None) q1_payload (token_header "secret123")).
Proof.
  apply (verify_gitlab_signature_spec (world None) q1_payload (token_header "secret123")).
  - right. eexists; reflexivity.
  - intros project [= <-]. vm_compute. discriminate.
Defined.

(** C3, on the scenario with a note event. *)
Lemma other_events_are_acknowledged_witness :
  invoke (world q1_config)
    (request "secret123" "{'object_kind':'note','project':{'path_with_namespace':'g/p'}}")
  = (Ret {| statusCode := 200;
            body := json_dumps (JObject [("message", JString "Not a merge request event")]);
            headers := None |}, []).
Proof.
  apply (other_events_are_acknowledged (world q1_config)
           (request_fields "secret123"
              "{'object_kind':'note','project':{'path_with_namespace':'g/p'}}")
           (json_text "{'object_kind':'note','project':{'path_with_namespace':'g/p'}}")
           (token_header "secret123")
           (JObject [("object_kind", JString "note");
                     ("project", JObject [("path_with_namespace", JString "g/p")])])).
  - split; reflexivity.
  - vm_compute; reflexivity.
  - vm_compute; reflexivity.
  - intros d [= <-]. vm_compute. discriminate.
Defined.

Lemma q1_configured : configured (world q1_config) [("q1", JString "PipelineQ1")].
Proof. vm_compute. reflexivity. Qed.

(** C4 as stated fails on a label whose entry in the mapping is the empty
    string: the label maps to it, and nothing is triggered. *)
Lemma empty_pipeline_counterexample :
  ~ dispatch_as_stated (world (Some "{'q1':''}"))
      (request "secret123" (merge_request q1_labels)).
Proof.
  intros H.
  specialize (H ["q1"] (JString "feature-x") [("q1", JString "")] "q1" (JString "")
                (q1_merge_request _)).
  assert (Hcfg : configured (world (Some "{'q1':''}")) [("q1", JString "")])
    by (vm_compute; reflexivity).
  specialize (H Hcfg (starts_always _) (or_introl eq_refl) eq_refl).
  vm_compute in H. exact H.
Qed.

Example empty_pipeline_outcome :
  invoke (world (Some "{'q1':''}")) (request "secret123" (merge_request q1_labels))
  = (Ret no_match_response, []).
Proof. vm_compute. reflexivity. Qed.

(** C4 as amended, on the scenario. *)
Lemma matching_labels_are_triggered_witness :
  invoke (world q1_config) (request "secret123" (merge_request q1_labels))
  = (Ret {| statusCode := 200;
            body := json_dumps
                      (JObject [("triggered_pipelines",
                                 JArray [JObject [("label", JString "q1");
                                                  ("pipeline", JString "PipelineQ1");
                                                  ("execution_id", JString "exec-1")]])]);
            headers := Some [("Content-Type", "application/json")] |},
     [call_for (JString "feature-x") ("q1", JString "PipelineQ1")]).
Proof.
  refine (proj1 (matching_labels_are_triggered (world q1_config)
                   (request "secret123" (merge_request q1_labels))
                   ["q1"] (JString "feature-x") [("q1", JString "PipelineQ1")]
                   (q1_merge_request _) q1_configured _ _)).
  - vm_compute. discriminate.
  - vm_compute. reflexivity.
Defined.

(** C5 as amended, on the scenario: one matching label, one call, one
    entry. *)
Lemma one_trigger_per_matching_label_witness :
  snd (invoke (world q1_config) (request "secret123" (merge_request q1_labels)))
  = [call_for (JString "feature-x") ("q1", JString "PipelineQ1")].
Proof.
  exact (proj1 (one_trigger_per_matching_label (world q1_config)
                  (request "secret123" (merge_request q1_labels))
                  ["q1"] (JString "feature-x") [("q1", JString "PipelineQ1")]
                  (q1_merge_request _) q1_configured)).
Defined.

(** C6 as amended, on the scenario with a mapping for another label. *)
Lemma unmatched_labels_are_skipped_witness :
  invoke (world (Some "{'q2':'PipelineQ2'}"))
    (request "secret123" (merge_request q1_labels))
  = (Ret {| statusCode := 200;
            body := json_dumps
                      (JObject [("message",
                                 JString "No matching label for pipeline, skipped")]);
            headers := Some [("Content-Type", "application/json")] |}, []).
Proof.
  apply (unmatched_labels_are_skipped (world (Some "{'q2':'PipelineQ2'}"))
           (request "secret123" (merge_request q1_labels))
           ["q1"] (JString "feature-x") [("q2", JString "PipelineQ2")]
           (q1_merge_request _)).
  - vm_compute; reflexivity.
  - intros label [<- | []]. reflexivity.
Defined.

Lemma q1_store_answers (config : option string) :
  store_answers_for (world config) (json_text (merge_request q1_labels)).
Proof.
  intros payload project. rewrite q1_decodes. intros [= <-] [= <-].
  vm_compute. discriminate.
Qed.

(** C7 as amended, on the scenario with a configuration that is not
    JSON. *)
Lemma malformed_mapping_is_reported_last_witness :
  invoke (world (Some "{'q1':")) (request "secret123" (merge_request q1_labels))
  = (Ret {| statusCode := 500;
            body := json_dumps
                      (JObject [("error",
                                 JString "Invalid LABEL_PIPELINE_MAPPING env var")]);
            headers := None |}, []).
Proof.
  apply (proj1 (malformed_mapping_is_reported_last (world (Some "{'q1':"))
                  (request_fields "secret123" (merge_request q1_labels))
                  (json_text (merge_request q1_labels)) (token_header "secret123")
                  q1_conforming (q1_store_answers _) eq_refl)).
  apply q1_reaches_dispatch.
Defined.

(** C8 as stated fails on a configuration that is JSON but not an object:
    the handler raises AttributeError, which is no backend failure. *)
Lemma list_mapping_counterexample :
  ~ propagation_as_stated (world (Some "[]"))
      (request "secret123" (merge_request q1_labels)).
Proof.
  intros H.
  assert (Hi : invoke (world (Some "[]")) (request "secret123" (merge_request q1_labels))
               = (Raise AttributeError, [])) by (vm_compute; reflexivity).
  destruct (H AttributeError [] Hi); discriminate.
Qed.

(** C8 as amended, on the scenario with a configuration that is not
    JSON. *)
Lemma recoverable_conditions_are_reported_witness :
  exists r,
    invoke (world (Some "{'q1':")) (request "secret123" (merge_request q1_labels))
    = (Ret r, []) /\ structured r.
Proof.
  apply (proj1 (recoverable_conditions_are_reported (world (Some "{'q1':"))
                  (request_fields "secret123" (merge_request q1_labels))
                  (json_text (merge_request q1_labels)) (token_header "secret123")
                  q1_conforming)).
  apply MalformedMapping; [apply q1_reaches_dispatch | reflexivity].
Defined.

(** C9 as amended, on the scenario without a configuration. *)
Lemma missing_mapping_is_empty_witness :
  invoke (world None) (request "secret123" (merge_request q1_labels))
  = (Ret {| statusCode := 200;
            body := json_dumps
                      (JObject [("message",
                                 JString "No matching label for pipeline, skipped")]);
            headers := Some [("Content-Type", "application/json")] |}, []).
Proof.
  apply (proj2 (missing_mapping_is_empty (world None) eq_refl)
           (request "secret123" (merge_request q1_labels)) ["q1"] (JString "feature-x")).
  apply q1_merge_request.
Defined.

(** C10, on an event with headers only. *)
Lemma missing_body_is_unauthorized_witness :
  invoke (world q1_config) (JObject [("headers", JObject (token_header "secret123"))])
  = (Ret {| statusCode := 403;
            body := json_dumps (JObject [("error", JString "No project info in payload")]);
            headers := None |}, []).
Proof.
  apply (missing_body_is_unauthorized (world q1_config)
           [("headers", JObject (token_header "secret123"))]
           (token_header "secret123")); reflexivity.
Defined.

(** C5 as stated fails when the backend refuses an execution: three
    matching labels, and two calls. *)
Lemma refused_execution_counterexample :
  ~ trigger_count_as_stated (Outage.backend_flaky Outage.three_config)
      (request "secret123" (merge_request Outage.three_labels)).
Proof.
  intros H.
  assert (Hmr : merge_request_event (Outage.backend_flaky Outage.three_config)
                  (request "secret123" (merge_request Outage.three_labels))
                  ["q1"; "q2"; "q3"] (JString "feature-x")).
  { eapply MergeRequestEvent with (raw_titles := ["Q1"; "Q2"; "Q3"]).
    - reflexivity.
    - apply request_carries.
    - cbv; reflexivity.
    - vm_compute; reflexivity.
    - reflexivity.
    - eexists; split; [left; reflexivity |].
      repeat constructor; eexists; split; reflexivity.
    - reflexivity.
    - right; eexists; split; reflexivity. }
  assert (Hcfg : configured (Outage.backend_flaky Outage.three_config)
                   [("q1", JString "A"); ("q2", JString "B"); ("q3", JString "C")])
    by (vm_compute; reflexivity).
  specialize (H _ _ _ Hmr Hcfg).
  vm_compute in H. discriminate H.
Qed.

Example refused_execution_outcome :
  List.length
    (snd (invoke (Outage.backend_flaky Outage.three_config)
            (request "secret123" (merge_request Outage.three_labels)))) = 2%nat.
Proof. vm_compute. reflexivity. Qed.

(** C6 as stated fails on a merge request with an empty label list whose
    object_attributes is null: the handler raises AttributeError. *)
Lemma null_attributes_counterexample :
  ~ no_match_as_stated (world q1_config)
      (request_fields "secret123"
         ("{'object_kind':'merge_request','project':{'path_with_namespace':'g/p'},"
          ++ "'object_attributes':null,'labels':[]}"))
      (json_text
         ("{'object_kind':'merge_request','project':{'path_with_namespace':'g/p'},"
          ++ "'object_attributes':null,'labels':[]}"))
      (token_header "secret123").
Proof.
  intros H.
  specialize (H [("object_kind", JString "merge_request");
                 ("project", JObject [("path_with_namespace", JString "g/p")]);
                 ("object_attributes", JNull);
                 ("labels", JArray [])]
                [] [("q1", JString "PipelineQ1")]
                (request_carries _ _)).
  assert (Hr : reaches_dispatch (world q1_config)
                 (json_text
                    ("{'object_kind':'merge_request','project':{'path_with_namespace':'g/p'},"
                     ++ "'object_attributes':null,'labels':[]}"))
                 (token_header "secret123")).
  { eexists. split; [cbv; reflexivity | split; [vm_compute; reflexivity | reflexivity]]. }
  specialize (H Hr).
  assert (Hd : json_loads
                 (json_text
                    ("{'object_kind':'merge_request','project':{'path_with_namespace':'g/p'},"
                     ++ "'object_attributes':null,'labels':[]}"))
               = Decoded (JObject [("object_kind", JString "merge_request");
                                   ("project",
                                    JObject [("path_with_namespace", JString "g/p")]);
                                   ("object_attributes", JNull);
                                   ("labels", JArray [])]))
    by (vm_compute; reflexivity).
  specialize (H Hd eq_refl q1_configured).
  assert (Hnone : forall label title, In label [] -> has_title label title ->
                    dict_get [("q1", JString "PipelineQ1")] (str_lower title) = None)
    by (intros label title []).
  specialize (H Hnone).
  vm_compute in H. discriminate H.
Qed.

Example null_attributes_outcome :
  run q1_config
    (request "secret123"
       ("{'object_kind':'merge_request','project':{'path_with_namespace':'g/p'},"
        ++ "'object_attributes':null,'labels':[]}"))
  = (Raise AttributeError, []).
Proof. vm_compute. reflexivity. Qed.

(** C7 as stated fails on a label without a title: with a configuration
    that is malformed JSON the body parses, authentication succeeds and the
    event is a merge request, and the handler raises KeyError instead of
    returning the 500 error. *)
Lemma untitled_label_counterexample :
  ~ mapping_order_as_stated (world (Some "{'q1':"))
      (request_fields "secret123" (merge_request "[{'name':'Q1'}]"))
      (json_text (merge_request "[{'name':'Q1'}]"))
      (token_header "secret123").
Proof.
  intros H.
  specialize (H (request_carries _ _) eq_refl).
  assert (Hr : reaches_dispatch (world (Some "{'q1':"))
                 (json_text (merge_request "[{'name':'Q1'}]"))
                 (token_header "secret123")).
  { eexists. split; [cbv; reflexivity | split; [vm_compute; reflexivity | reflexivity]]. }
  apply H in Hr. vm_compute in Hr. discriminate Hr.
Qed.

Example untitled_label_outcome :
  run (Some "{'q1':") (request "secret123" (merge_request "[{'name':'Q1'}]"))
  = (Raise KeyError, []).
Proof. vm_compute. reflexivity. Qed.

(** C9 as stated fails on an authenticated merge request whose
    object_attributes is null: without the variable the handler raises
    AttributeError instead of returning the no-match answer. *)
Lemma missing_mapping_counterexample :
  ~ missing_mapping_as_stated (world None)
      (request_fields "secret123"
         ("{'object_kind':'merge_request','project':{'path_with_namespace':'g/p'},"
          ++ "'object_attributes':null,'labels':[{'title':'Q1'}]}"))
      (json_text
         ("{'object_kind':'merge_request','project':{'path_with_namespace':'g/p'},"
          ++ "'object_attributes':null,'labels':[{'title':'Q1'}]}"))
      (token_header "secret123").
Proof.
  intros H.
  specialize (H eq_refl (request_carries _ _)).
  assert (Hr : reaches_dispatch (world None)
                 (json_text
                    ("{'object_kind':'merge_request','project':{'path_with_namespace':'g/p'},"
                     ++ "'object_attributes':null,'labels':[{'title':'Q1'}]}"))
                 (token_header "secret123")).
  { eexists. split; [cbv; reflexivity | split; [vm_compute; reflexivity | reflexivity]]. }
  specialize (H Hr). vm_compute in H. discriminate H.
Qed.

Example missing_mapping_outcome :
  run None
    (request "secret123"
       ("{'object_kind':'merge_request','project':{'path_with_namespace':'g/p'},"
        ++ "'object_attributes':null,'labels':[{'title':'Q1'}]}"))
  = (Raise AttributeError, []).
Proof. vm_compute. reflexivity. Qed.

End Examples.

(** ** Further properties of the module *)

Section Beyond.

Context {rt : PyRuntime} (w : World).

Ltac case_of H :=
  match type of H with
  | context [match ?x with _ => _ end] => destruct x eqn:?; try discriminate H
  end.

(** A successful authentication returns [None] as its message. *)
Lemma verify_accepts (payload headers m : json) :
  verify_gitlab_signature w payload headers = Ret (true, m) -> m = JNull.
Proof.
  unfold verify_gitlab_signature, rbind.
  intros H.
  repeat case_of H; injection H as <-; reflexivity.
Qed.

(** The calls the loop adds, for any mapping value: each names a truthy
    pipeline and overrides the branch, and a loop that returns has added
    one entry per call. *)
Lemma trigger_labels_calls (mapping source_branch : json) (titles : list string) :
  forall acc tr r tr',
    trigger_labels w mapping source_branch titles acc tr = (r, tr') ->
    exists new,
      tr' = (tr ++ new)%list /\
      Forall (fun c => truthy (call_name c) = true /\
                       call_variables c = branch_override source_branch) new /\
      forall l, r = Ret l ->
                exists es, l = (acc ++ es)%list /\ List.length es = List.length new.
Proof.
  induction titles as [| label rest IH]; intros acc tr r tr'; simpl.
  - intros [= <- <-]. exists []. rewrite app_nil_r.
    split; [reflexivity | split; [constructor |]].
    intros l [= <-]. exists []. now rewrite app_nil_r.
  - unfold bind at 1, lift.
    destruct (py_get mapping label JNull) as [pipeline | e].
    2: { intros [= <- <-]. exists []. rewrite app_nil_r.
         split; [reflexivity | split; [constructor | discriminate]]. }
    destruct (truthy pipeline) eqn:Ht; [| apply IH].
    unfold bind, trigger_pipeline.
    destruct (start_pipeline_execution w tr _) as [id |].
    + intros H. apply IH in H as (new & -> & Hall & Hl).
      eexists (_ :: new). rewrite <- app_assoc. split; [reflexivity |].
      split; [constructor; [split; [exact Ht | reflexivity] | exact Hall] |].
      intros l Hr. destruct (Hl l Hr) as (es & -> & Hlen).
      eexists (_ :: es). rewrite <- app_assoc. split; [reflexivity |].
      simpl. now rewrite Hlen.
    + intros [= <- <-]. eexists [_]. split; [reflexivity |].
      split; [| discriminate].
      constructor; [split; [exact Ht | reflexivity] | constructor].
Qed.

(** What lines 74 to 114 can do, for any payload. *)
Lemma dispatch_inversion (payload : json) (r : result response)
    (calls : list trigger_call) :
  dispatch w payload [] = (r, calls) ->
  exists source_branch,
    Forall (fun c => truthy (call_name c) = true /\
                     call_variables c = branch_override source_branch) calls /\
    forall resp, r = Ret resp ->
      calls = [] /\
      (resp = error_response 500 (JString "Invalid LABEL_PIPELINE_MAPPING env var") \/
       resp = no_match_response) \/
      calls <> [] /\
      exists entries, resp = triggered_response entries /\
                      List.length entries = List.length calls.
Proof.
  unfold dispatch, bind, lift, ret.
  destruct (py_get payload "labels" (JArray [])) as [labels | e];
    [| intros [= <- <-]; exists JNull; split; [constructor | discriminate]].
  destruct (label_titles_of labels) as [titles | e];
    [| intros [= <- <-]; exists JNull; split; [constructor | discriminate]].
  destruct (py_get payload "object_attributes" (JObject [])) as [oa | e];
    [| intros [= <- <-]; exists JNull; split; [constructor | discriminate]].
  destruct (py_get oa "source_branch" JNull) as [src | e];
    [| intros [= <- <-]; exists JNull; split; [constructor | discriminate]].
  destruct (loads (JString (label_pipeline_mapping_str w))) as [[mapping |] | e].
  - destruct (trigger_labels w mapping src titles [] []) as [r0 tr0] eqn:Ht.
    apply trigger_labels_calls in Ht as (new & -> & Hall & Hl). simpl in *.
    destruct r0 as [l | e].
    + destruct (Hl l eq_refl) as (es & -> & Hlen). simpl.
      destruct es as [| t ts]; intros [= <- <-]; exists src; (split; [exact Hall |]);
        intros resp [= <-].
      * left. destruct new; [auto | discriminate].
      * right. split; [destruct new; [discriminate | discriminate] |].
        eexists; split; [reflexivity | exact Hlen].
    + intros [= <- <-]. exists src. split; [exact Hall | discriminate].
  - intros [= <- <-]. exists src. split; [constructor |].
    intros resp [= <-]. left. auto.
  - intros [= <- <-]. exists src. split; [constructor | discriminate].
Qed.

(** What the handler can do, for any event: stop before the dispatch with
    no call, or dispatch an authenticated merge request. *)
Lemma invoke_inversion (event : json) (r : result response)
    (calls : list trigger_call) :
  invoke w event = (r, calls) ->
  (calls = [] /\
   forall resp, r = Ret resp ->
     resp = error_response 400 (JString "Invalid JSON payload") \/
     (exists reason, resp = error_response 403 (JString reason)) \/
     resp = not_merge_request_response) \/
  (exists body headers payload,
      py_get event "body" (JString "{}") = Ret body /\
      py_get event "headers" (JObject []) = Ret headers /\
      loads body = Ret (Some payload) /\
      verify_gitlab_signature w payload headers = Ret (true, JNull) /\
      py_get payload "object_kind" JNull = Ret (JString "merge_request") /\
      dispatch w payload [] = (r, calls)).
Proof.
  unfold invoke, lambda_handler, bind, lift, ret.
  destruct (py_get event "body" (JString "{}")) as [body | e] eqn:Hb;
    [| intros [= <- <-]; left; split; [reflexivity | discriminate]].
  destruct (py_get event "headers" (JObject [])) as [headers | e] eqn:Hh;
    [| intros [= <- <-]; left; split; [reflexivity | discriminate]].
  destruct (loads body) as [[payload |] | e] eqn:Hl;
    [| intros [= <- <-]; left; split; [reflexivity |]; intros resp [= <-]; auto
     | intros [= <- <-]; left; split; [reflexivity | discriminate]].
  destruct (verify_gitlab_signature w payload headers) as [[[] msg] | e] eqn:Hv;
    simpl;
    [| intros [= <- <-]; left; split; [reflexivity |]; intros resp [= <-];
       destruct (verify_reason w _ _ _ Hv) as [s ->]; right; left; eexists; reflexivity
     | intros [= <- <-]; left; split; [reflexivity | discriminate]].
  rewrite (verify_accepts _ _ _ Hv) in Hv.
  destruct (py_get payload "object_kind" JNull) as [kind | e] eqn:Hk;
    [| intros [= <- <-]; left; split; [reflexivity | discriminate]].
  destruct (eq_str kind "merge_request") eqn:E; simpl.
  - apply eq_str_true in E; subst kind. intros H. right.
    exists body, headers, payload. repeat split; auto.
  - intros [= <- <-]. left. split; [reflexivity |]. intros resp [= <-]. auto.
Qed.

(** X1.  No pipeline is triggered without authentication: if an invocation
    makes any trigger call, on any event at all, then the body was a string
    that decoded, [verify_gitlab_signature] accepted the payload and the
    headers, and [object_kind] was [merge_request]. *)
Theorem no_trigger_without_authentication (event : json) (r : result response)
    (calls : list trigger_call) :
  invoke w event = (r, calls) ->
  calls <> [] ->
  exists body headers payload,
    py_get event "body" (JString "{}") = Ret body /\
    py_get event "headers" (JObject []) = Ret headers /\
    loads body = Ret (Some payload) /\
    verify_gitlab_signature w payload headers = Ret (true, JNull) /\
    py_get payload "object_kind" JNull = Ret (JString "merge_request").
Proof.
  intros Hi Hne.
  destruct (invoke_inversion event r calls Hi)
    as [[-> _] | (body & headers & payload & Hb & Hh & Hl & Hv & Hk & _)].
  - contradiction.
  - exists body, headers, payload. auto.
Qed.

(** X2.  Every trigger call an invocation makes, on any event and under
    any configuration, names a truthy pipeline and passes exactly one
    variable, SOURCE_BRANCH, with the same branch value in all the calls. *)
Theorem every_call_overrides_the_branch (event : json) (r : result response)
    (calls : list trigger_call) :
  invoke w event = (r, calls) ->
  exists source_branch,
    Forall (fun c => truthy (call_name c) = true /\
                     call_variables c
                     = JArray [JObject [("name", JString "SOURCE_BRANCH");
                                        ("value", source_branch)]]) calls.
Proof.
  intros Hi.
  destruct (invoke_inversion event r calls Hi) as [[-> _] | (b & h & p & Hrest)].
  - exists JNull. constructor.
  - destruct Hrest as (_ & _ & _ & _ & _ & Hd).
    destruct (dispatch_inversion p r calls Hd) as (src & Hall & _).
    exists src. exact Hall.
Qed.

(** X3.  The responses of the handler, on any event: a response that comes
    with no trigger call is one of the five fixed answers (400, 403 with a
    string reason, the neutral 200, 500, the no-match 200), and a response
    that comes with calls is the 200 triggered_pipelines answer with exactly
    one entry per call made. *)
Theorem responses_are_classified (event : json) (resp : response)
    (calls : list trigger_call) :
  invoke w event = (Ret resp, calls) ->
  calls = [] /\
  (resp = {| statusCode := 400;
             body := json_dumps (JObject [("error", JString "Invalid JSON payload")]);
             headers := None |} \/
   (exists reason,
       resp = {| statusCode := 403;
                 body := json_dumps (JObject [("error", JString reason)]);
                 headers := None |}) \/
   resp = {| statusCode := 200;
             body := json_dumps (JObject [("message", JString "Not a merge request event")]);
             headers := None |} \/
   resp = {| statusCode := 500;
             body := json_dumps
                       (JObject [("error",
                                  JString "Invalid LABEL_PIPELINE_MAPPING env var")]);
             headers := None |} \/
   resp = {| statusCode := 200;
             body := json_dumps
                       (JObject [("message",
                                  JString "No matching label for pipeline, skipped")]);
             headers := Some [("Content-Type", "application/json")] |}) \/
  calls <> [] /\
  exists entries,
    resp = {| statusCode := 200;
              body := json_dumps (JObject [("triggered_pipelines", JArray entries)]);
              headers := Some [("Content-Type", "application/json")] |} /\
    List.length entries = List.length calls.
Proof.
  intros Hi.
  destruct (invoke_inversion event _ calls Hi) as [[-> Hr] | (b & h & p & Hrest)].
  - left. split; [reflexivity |].
    destruct (Hr resp eq_refl) as [H | [[reason H] | H]].
    + left. exact H.
    + right; left. exists reason. exact H.
    + right; right; left. exact H.
  - destruct Hrest as (_ & _ & _ & _ & _ & Hd).
    destruct (dispatch_inversion p _ calls Hd) as (src & _ & Hr).
    destruct (Hr resp eq_refl) as [[-> [H | H]] | [Hne (entries & H & Hlen)]].
    + left. split; [reflexivity |]. right; right; right; left. exact H.
    + left. split; [reflexivity |]. right; right; right; right. exact H.
    + right. split; [exact Hne |]. exists entries. split; [exact H | exact Hlen].
Qed.

(** X4.  Authentication is sound: [verify_gitlab_signature] accepts only a
    payload object with a truthy project path and a header map whose token
    is a string equal to the secret the store holds for the project, and
    that secret is not empty; a missing, empty or non-string token is never
    accepted. *)
Theorem authentication_is_sound (payload headers m : json) :
  verify_gitlab_signature w payload headers = Ret (true, m) ->
  exists p hs project secret,
    payload = JObject p /\ headers = JObject hs /\
    project_path p = Some project /\ truthy project = true /\
    get_secret_value w (secret_key project) = SecretResponse secret /\
    secret <> "" /\
    supplied_token hs = JString secret.
Proof.
  unfold verify_gitlab_signature.
  destruct headers as [| | | | | | hs]; simpl; try discriminate.
  rewrite lower_keys_get. fold (supplied_token hs).
  destruct payload as [| | | | | | p]; simpl; try discriminate.
  destruct (dict_get p "project") as [[| | | | | | pj] |] eqn:Hp; simpl;
    try discriminate.
  destruct (dict_get pj "path_with_namespace") as [project |] eqn:Hpath; simpl;
    try discriminate.
  destruct (truthy project) eqn:Ht; simpl; try discriminate.
  unfold get_project_token. fold (secret_key project).
  destruct (get_secret_value w (secret_key project)) as [secret | |] eqn:Hs; simpl;
    try discriminate.
  destruct (String.eqb secret "") eqn:He; simpl; try discriminate.
  destruct (eq_str (supplied_token hs) secret) eqn:Et; simpl; try discriminate.
  intros _. exists p, hs, project, secret.
  apply eq_str_true in Et. apply String.eqb_neq in He.
  repeat split; try assumption || reflexivity.
  unfold project_path. now rewrite Hp.
Qed.

(** X5.  When several headers carry the token name in different cases, the
    last one the header map lists decides: with a token header at the end,
    the headers before it have no influence on authentication. *)
Theorem last_token_header_decides (payload : json) (hs : dict) (name : string)
    (token : json) :
  str_lower name = "x-gitlab-token" ->
  verify_gitlab_signature w payload (JObject (hs ++ [(name, token)]))
  = verify_gitlab_signature w payload (JObject [(name, token)]).
Proof.
  intros Hn. unfold verify_gitlab_signature; simpl py_items; simpl rbind.
  rewrite !lower_keys_get. unfold header_value.
  rewrite rev_app_distr; simpl. now rewrite Hn.
Qed.

(** X6.  A failure of the secret store other than a missing secret is not
    caught: when the lookup for the payload's project fails, the handler
    raises, returns no response and triggers nothing. *)
Theorem secret_store_failure_propagates (ev : dict) (text : string) (hs payload : dict)
    (project : json) :
  carries ev text hs ->
  json_loads text = Decoded (JObject payload) ->
  project_path payload = Some project ->
  truthy project = true ->
  get_secret_value w (secret_key project) = SecretsClientError ->
  invoke w (JObject ev) = (Raise SecretsManagerError, []).
Proof.
  intros Hc Hd Hp Ht Hs.
  rewrite (invoke_steps w ev text hs Hc), Hd.
  unfold verify_gitlab_signature; simpl.
  unfold project_path in Hp.
  destruct (dict_get payload "project") as [[| | | | | | pj] |]; try discriminate.
  simpl. rewrite Hp; simpl. rewrite Ht; simpl.
  unfold get_project_token. fold (secret_key project). now rewrite Hs.
Qed.

(** X7.  A failure of the pipeline backend stops the dispatch: when the
    backend refuses one of the executions, the handler raises and returns
    no response, although the executions before it were started; the calls
    made are those up to and including the refused one, and no later label
    is triggered. *)
Theorem pipeline_failure_stops_dispatch (event : json) (titles : list string)
    (source_branch : json) (mapping : dict) :
  merge_request_event w event titles source_branch ->
  configured w mapping ->
  let calls := map (call_for source_branch) (matching mapping titles) in
  let started := executions w [] calls in
  (List.length started < List.length calls)%nat ->
  invoke w event = (Raise CodePipelineError, firstn (S (List.length started)) calls).
Proof.
  intros Hmr Hcfg calls started Hlt.
  rewrite (invoke_merge_request w event titles source_branch Hmr), Hcfg.
  rewrite trigger_labels_outcome. cbv zeta. fold calls. fold started.
  destruct (Nat.eqb (List.length started) (List.length calls)) eqn:E.
  - apply Nat.eqb_eq in E. lia.
  - reflexivity.
Qed.

(** X9.  The shape of the configuration goes unnoticed on a merge request
    without labels: whatever JSON value LABEL_PIPELINE_MAPPING decodes to,
    an object or not, the answer is the no-match 200 and nothing is
    triggered. *)
Theorem unlabelled_request_ignores_mapping_shape (event : json)
    (source_branch mapping : json) :
  merge_request_event w event [] source_branch ->
  json_loads (label_pipeline_mapping_str w) = Decoded mapping ->
  invoke w event
  = (Ret {| statusCode := 200;
            body := json_dumps
                      (JObject [("message",
                                 JString "No matching label for pipeline, skipped")]);
            headers := Some [("Content-Type", "application/json")] |}, []).
Proof.
  intros Hmr Hcfg.
  now rewrite (invoke_merge_request w event [] source_branch Hmr), Hcfg.
Qed.

(** X10.  A configuration that is valid JSON but not an object is not
    reported as a configuration error: on a merge request with at least one
    label the handler raises AttributeError, returns no response and
    triggers nothing. *)
Theorem non_object_mapping_raises (event : json) (label : string)
    (titles : list string) (source_branch mapping : json) :
  merge_request_event w event (label :: titles) source_branch ->
  json_loads (label_pipeline_mapping_str w) = Decoded mapping ->
  (forall d, mapping <> JObject d) ->
  invoke w event = (Raise AttributeError, []).
Proof.
  intros Hmr Hcfg Hno.
  rewrite (invoke_merge_request w event _ source_branch Hmr), Hcfg.
  simpl. unfold bind, lift.
  destruct mapping; try reflexivity.
  now destruct (Hno fields).
Qed.

Lemma titles_of_untitled (good : list json) (raw : list string) (d : dict)
    (rest : list json) :
  Forall2 has_title good raw ->
  dict_get d "title" = None ->
  titles_of (good ++ JObject d :: rest) = Raise KeyError.
Proof.
  intros Hgood Hd.
  induction Hgood as [| label title good raw (d' & -> & Hd') _ IH]; simpl.
  - unfold label_title; simpl. now rewrite Hd.
  - unfold label_title at 1; simpl. rewrite Hd'; simpl. now rewrite IH.
Qed.

(** X11.  The label titles are read before the configuration: on an
    authenticated merge request with a label that has no [title], the
    handler raises KeyError and returns no response, whatever the
    configuration is, a malformed one included, and triggers nothing. *)
Theorem untitled_label_raises_first (ev : dict) (text : string) (hs payload : dict)
    (good : list json) (raw : list string) (d : dict) (rest : list json) :
  carries ev text hs ->
  json_loads text = Decoded (JObject payload) ->
  verify_gitlab_signature w (JObject payload) (JObject hs) = Ret (true, JNull) ->
  dict_get payload "object_kind" = Some (JString "merge_request") ->
  dict_get payload "labels" = Some (JArray (good ++ JObject d :: rest)) ->
  Forall2 has_title good raw ->
  dict_get d "title" = None ->
  invoke w (JObject ev) = (Raise KeyError, []).
Proof.
  intros Hc Hd Hv Hk Hl Hgood Ht.
  rewrite (invoke_steps w ev text hs Hc), Hd, Hv; simpl.
  rewrite Hk; simpl.
  unfold dispatch, bind, lift; simpl. rewrite Hl.
  unfold label_titles_of; simpl.
  now rewrite (titles_of_untitled good raw d rest Hgood Ht).
Qed.

(** X12.  A body that is present but not a string, such as the [null] a
    transport sends for a request without a body, is not answered with the
    400 response: the handler raises TypeError. *)
Theorem non_string_body_raises (ev : dict) (b : json) :
  dict_get ev "body" = Some b ->
  (forall s, b <> JString s) ->
  invoke w (JObject ev) = (Raise TypeError, []).
Proof.
  intros Hb Hns.
  unfold invoke, lambda_handler, bind, lift; simpl. rewrite Hb.
  destruct b; try reflexivity.
  now destruct (Hns s).
Qed.

End Beyond.

(** ** The further properties on examples *)

Section MoreExamples.

#[local] Existing Instance Reference.runtime.

Import Example.

Ltac example_event raw :=
  eapply MergeRequestEvent with (raw_titles := raw);
  [ reflexivity
  | apply request_carries
  | cbv; reflexivity
  | vm_compute; reflexivity
  | reflexivity
  | eexists; split; [left; reflexivity | repeat constructor; eexists; split; reflexivity]
  | reflexivity
  | try (right; eexists; split; reflexivity); try (left; split; reflexivity) ].

(** X1, on the scenario. *)
Lemma no_trigger_without_authentication_witness :
  exists body headers payload,
    py_get (request "secret123" (merge_request q1_labels)) "body" (JString "{}")
    = Ret body /\
    py_get (request "secret123" (merge_request q1_labels)) "headers" (JObject [])
    = Ret headers /\
    loads body = Ret (Some payload) /\
    verify_gitlab_signature (world q1_config) payload headers = Ret (true, JNull) /\
    py_get payload "object_kind" JNull = Ret (JString "merge_request").
Proof.
  apply (no_trigger_without_authentication (world q1_config) _ _ _ scenario_triggered).
  discriminate.
Defined.

(** X2, on the scenario. *)
Lemma every_call_overrides_the_branch_witness :
  exists source_branch,
    Forall (fun c => truthy (call_name c) = true /\
                     call_variables c
                     = JArray [JObject [("name", JString "SOURCE_BRANCH");
                                        ("value", source_branch)]])
      [{| call_name := JString "PipelineQ1";
          call_variables :=
            JArray [JObject [("name", JString "SOURCE_BRANCH");
                             ("value", JString "feature-x")]] |}].
Proof.
  exact (every_call_overrides_the_branch (world q1_config) _ _ _ scenario_triggered).
Defined.

(** X3, on the scenario with the token [wrong]. *)
Lemma responses_are_classified_witness :
  exists reason,
    {| statusCode := 403;
       body := json_text "{'error': 'Invalid secret token'}";
       headers := None |}
    = {| statusCode := 403;
         body := json_dumps (JObject [("error", JString reason)]);
         headers := None |}.
Proof.
  destruct (responses_are_classified (world q1_config) _ _ _ scenario_wrong_token)
    as [[_ [H | [H | [H | [H | H]]]]] | [H _]].
  - discriminate H.
  - exact H.
  - discriminate H.
  - discriminate H.
  - discriminate H.
  - now destruct H.
Defined.

(** X4, on the scenario's payload and token. *)
Lemma authentication_is_sound_witness :
  exists p hs project secret,
    JObject q1_payload = JObject p /\
    JObject (token_header "secret123") = JObject hs /\
    project_path p = Some project /\ truthy project = true /\
    get_secret_value (world None) (secret_key project) = SecretResponse secret /\
    secret <> "" /\
    supplied_token hs = JString secret.
Proof.
  apply (authentication_is_sound (world None) (JObject q1_payload)
           (JObject (token_header "secret123")) JNull).
  vm_compute. reflexivity.
Defined.

(** X5: a wrong token in a first header, the right one in a second. *)
Lemma last_token_header_decides_witness :
  verify_gitlab_signature (world None) (JObject q1_payload)
    (JObject ([("X-Gitlab-Token", JString "wrong")]
              ++ [("x-gitlab-token", JString "secret123")]))
  = verify_gitlab_signature (world None) (JObject q1_payload)
      (JObject [("x-gitlab-token", JString "secret123")]).
Proof.
  apply (last_token_header_decides (world None) (JObject q1_payload)
           [("X-Gitlab-Token", JString "wrong")] "x-gitlab-token" (JString "secret123")).
  reflexivity.
Defined.

(** X6, on the scenario with the secret store down. *)
Lemma secret_store_failure_propagates_witness :
  invoke (Outage.store_down q1_config) (request "secret123" (merge_request q1_labels))
  = (Raise SecretsManagerError, []).
Proof.
  apply (secret_store_failure_propagates (Outage.store_down q1_config)
           (request_fields "secret123" (merge_request q1_labels))
           (json_text (merge_request q1_labels)) (token_header "secret123")
           q1_payload (JString "g/p")).
  - apply request_carries.
  - exact q1_decodes.
  - reflexivity.
  - reflexivity.
  - reflexivity.
Defined.

Lemma three_labels_event :
  merge_request_event (Outage.backend_flaky Outage.three_config)
    (request "secret123" (merge_request Outage.three_labels))
    ["q1"; "q2"; "q3"] (JString "feature-x").
Proof. example_event ["Q1"; "Q2"; "Q3"]. Qed.

(** X7: three matching labels and a backend that refuses the second
    execution; the first two calls are made, the third is not. *)
Lemma pipeline_failure_stops_dispatch_witness :
  invoke (Outage.backend_flaky Outage.three_config)
    (request "secret123" (merge_request Outage.three_labels))
  = (Raise CodePipelineError,
     [call_for (JString "feature-x") ("q1", JString "A");
      call_for (JString "feature-x") ("q2", JString "B")]).
Proof.
  refine (pipeline_failure_stops_dispatch (Outage.backend_flaky Outage.three_config)
            (request "secret123" (merge_request Outage.three_labels))
            ["q1"; "q2"; "q3"] (JString "feature-x")
            [("q1", JString "A"); ("q2", JString "B"); ("q3", JString "C")]
            three_labels_event _ _).
  - vm_compute. reflexivity.
  - vm_compute. lia.
Defined.

Lemma unlabelled_event (config : option string) :
  merge_request_event (world config) (request "secret123" (merge_request "[]"))
    [] (JString "feature-x").
Proof. example_event (@nil string). Qed.

(** X9: no labels, and a configuration that is a JSON list. *)
Lemma unlabelled_request_ignores_mapping_shape_witness :
  invoke (world (Some "[1, 2]")) (request "secret123" (merge_request "[]"))
  = (Ret {| statusCode := 200;
            body := json_dumps
                      (JObject [("message",
                                 JString "No matching label for pipeline, skipped")]);
            headers := Some [("Content-Type", "application/json")] |}, []).
Proof.
  apply (unlabelled_request_ignores_mapping_shape (world (Some "[1, 2]"))
           (request "secret123" (merge_request "[]")) (JString "feature-x")
           (JArray [JInt 1; JInt 2]) (unlabelled_event _)).
  vm_compute. reflexivity.
Defined.

(** X10: the scenario, and a configuration that is a JSON string. *)
Lemma non_object_mapping_raises_witness :
  invoke (world (Some "'PipelineQ1'")) (request "secret123" (merge_request q1_labels))
  = (Raise AttributeError, []).
Proof.
  apply (non_object_mapping_raises (world (Some "'PipelineQ1'"))
           (request "secret123" (merge_request q1_labels)) "q1" []
           (JString "feature-x") (JString "PipelineQ1") (q1_merge_request _)).
  - vm_compute. reflexivity.
  - discriminate.
Defined.

(** X11: a titled label, then a label with a [name] only, under a
    configuration that is not JSON. *)
Lemma untitled_label_raises_first_witness :
  invoke (world (Some "{'q1':"))
    (request "secret123" (merge_request "[{'title':'Q1'},{'name':'Q2'}]"))
  = (Raise KeyError, []).
Proof.
  refine (untitled_label_raises_first (world (Some "{'q1':"))
            (request_fields "secret123" _) _ (token_header "secret123")
            [("object_kind", JString "merge_request");
             ("project", JObject [("path_with_namespace", JString "g/p")]);
             ("object_attributes", JObject [("source_branch", JString "feature-x")]);
             ("labels", JArray [JObject [("title", JString "Q1")];
                                JObject [("name", JString "Q2")]])]
            [JObject [("title", JString "Q1")]] ["Q1"] [("name", JString "Q2")] []
            (request_carries _ _) _ _ _ _ _ _).
  - vm_compute. reflexivity.
  - vm_compute. reflexivity.
  - reflexivity.
  - reflexivity.
  - repeat constructor. eexists; split; reflexivity.
  - reflexivity.
Defined.

(** X12, on an event whose body is [null]. *)
Lemma non_string_body_raises_witness :
  invoke (world q1_config)
    (JObject [("body", JNull); ("headers", JObject (token_header "secret123"))])
  = (Raise TypeError, []).
Proof.
  apply (non_string_body_raises (world q1_config)
           [("body", JNull); ("headers", JObject (token_header "secret123"))] JNull).
  - reflexivity.
  - discriminate.
Defined.

End MoreExamples.
